(** * Focus-driven navigation of the WebTV Playwright harness

    A shallow embedding of
      - [src/utils/navigationHelpers.js]  ([normalise], [waitForFocusChange],
        [logNavigationFailure], [createTestIdFocusGetter]),
      - [src/utils/remoteControl.js]      ([RemoteControl]),
      - [src/components/NavigationBar.js] ([navigateToMenuItemByName]),
      - [src/pages/HomeScreenPage.js]     ([navigateToApp],
        [addAppToFavoritesFromAppsPage]),
    and the properties of the directional search that the specification
    states about them.

    Conventions of the embedding.
      - A JavaScript string is a [string]; a character stands for the code
        unit of the same number, so strings range over U+0000..U+00FF.
      - [string | null] is [option string], [None] being [null].
      - Numbers that count steps or milliseconds are integers of [Z]; a
        number that may be [NaN] is an [option Z], [None] being [NaN].
      - The browser page is an abstract world [W] with the operations of
        the class [World]; asynchronous functions are state transformers
        over the record [St], which pairs the world with the key events
        dispatched and the warnings logged so far.
      - A time-bounded polling loop takes a number of polls it may make
        ([fuel]); running out of it is the result [OutOfFuel]. *)

From Stdlib Require Import ZArith List String Ascii Bool Lia.
Import ListNotations.

Local Open Scope string_scope.
Local Open Scope list_scope.
Local Open Scope Z_scope.

(* ------------------------------------------------------------------ *)
(** ** JavaScript strings *)

Module Js.

(** [string | null]. *)
Definition Nullable := option string.

(** Truthiness of a [string | null]: [null] and [''] are falsy. *)
Definition truthy (v : Nullable) : bool :=
  match v with
  | None => false
  | Some s => negb (s =? EmptyString)%string
  end.

(** [a === b] on [string | null]. *)
Definition strict_eq (a b : Nullable) : bool :=
  match a, b with
  | None, None => true
  | Some x, Some y => (x =? y)%string
  | _, _ => false
  end.

(** White space and line terminators removed by [String.prototype.trim],
    below U+0100: TAB, LF, VT, FF, CR, SPACE and NO-BREAK SPACE. *)
Definition isWhiteSpace (c : ascii) : bool :=
  let n := N_of_ascii c in
  ((9 <=? n) && (n <=? 13) || (n =? 32) || (n =? 160))%N.

(** The lower-case mapping below U+0100: A-Z and the letters of
    U+00C0..U+00DE (all but the multiplication sign U+00D7) move up by
    32; every other code unit is its own lower case. *)
Definition toLowerChar (c : ascii) : ascii :=
  let n := N_of_ascii c in
  if ((65 <=? n) && (n <=? 90)
      || (192 <=? n) && (n <=? 222) && negb (n =? 215))%N
  then ascii_of_N (n + 32)
  else c.

Fixpoint trimStartChars (l : list ascii) : list ascii :=
  match l with
  | c :: l' => if isWhiteSpace c then trimStartChars l' else l
  | [] => []
  end.

Definition trimChars (l : list ascii) : list ascii :=
  rev (trimStartChars (rev (trimStartChars l))).

(** [s.toLowerCase()] *)
Definition toLowerCase (s : string) : string :=
  string_of_list_ascii (map toLowerChar (list_ascii_of_string s)).

(** [s.trim()] *)
Definition trim (s : string) : string :=
  string_of_list_ascii (trimChars (list_ascii_of_string s)).

End Js.

(* ------------------------------------------------------------------ *)
(** ** src/utils/constants.js *)

Module TIMEOUTS.
Definition DEFAULT : Z := 10000.
Definition ELEMENT_VISIBILITY : Z := 15000.
Definition NETWORK_IDLE : Z := 5000.
Definition LONG_PRESS_DURATION : Z := 1500.
Definition FOCUS_CHANGE : Z := 500.
Definition POLLING : Z := 1000.
Definition KEY_PRESS_DELAY : Z := 100.
Definition POLLING_INTERVAL : Z := 50.
Definition LOADING_COMPLETE : Z := 30000.
End TIMEOUTS.

Module NAVIGATION_LIMITS.
Definition MAX_MENU_STEPS : Z := 10.
Definition MAX_RAIL_STEPS : Z := 50.
Definition MAX_CATEGORY_STEPS : Z := 20.
Definition MAX_APP_SEARCH_STEPS : Z := 100.
Definition MAX_RETRY_ATTEMPTS : Z := 15.
Definition MAX_STALE_FOCUS_ATTEMPTS : Z := 2.
Definition MAX_DOWN_STEPS : Z := 15.
End NAVIGATION_LIMITS.

(* ------------------------------------------------------------------ *)
(** ** The page and the effects of asynchronous functions *)

(** The locators the page objects build. *)
Inductive Locator : Type :=
| FavouriteAppsRail                    (* page.getByLabel('Favourite Apps') *)
| VideoRail                            (* page.getByRole('list', { name: 'Video' }) *)
| FocusedListItem (container : Locator)
    (* container.locator('[role="listitem"][data-focused="focused"]') *)
| MenuItem (testId name : string)
    (* page.getByTestId(testId).getByRole('menuitem', { name }) *)
| NavRoot                              (* page.getByRole('navigation', { name: 'Main menu' }) *)
| FavButton.                           (* page.locator('#app-fav-button') *)

(** What the code asks of the browser session and of the clock.  Every
    operation may change the world: the user interface moves on its own
    while the caller is suspended.  A [bool] result tells whether the
    awaited promise was fulfilled ([true]) or rejected ([false]). *)
Class World (W : Type) : Type := {
  keyboard_press : string -> W -> W;
  waitForTimeout : Z -> W -> W;
  Date_now : W -> Z;
  waitForLoadState : string -> W -> bool * W;
  locator_count : Locator -> W -> Z * W;
  locator_getAttribute : Locator -> string -> W -> Js.Nullable * W;
  locator_waitFor_visible : Locator -> W -> bool * W;
  expect_toHaveAttribute : Locator -> string -> string -> W -> bool * W;
  expect_toBeVisible : Locator -> W -> bool * W
}.

(** The clock never runs backwards, and a suspension of [ms] time units
    lasts at least that long. *)
Class ClockLaws (W : Type) `{World W} : Prop := {
  waitForTimeout_elapses :
    forall ms w, Date_now w + ms <= Date_now (waitForTimeout ms w);
  locator_count_monotone :
    forall l w, Date_now w <= Date_now (snd (locator_count l w));
  locator_getAttribute_monotone :
    forall l a w, Date_now w <= Date_now (snd (locator_getAttribute l a w))
}.

(** Further locators of [HomeScreenPage]. *)
Inductive AppLocator : Type :=
| FavouriteListItem (name : string)
    (* page.getByRole('list', { name: 'Favourite Apps' })
           .getByRole('listitem', { name }) *)
| RemoveAppButton
    (* getEditControlsForFocusedApp().getByTestId('editmode-remove-app') *)
| ListsContainer                     (* page.getByTestId('lists-container') *)
| FeaturedAppsRail                   (* page.getByLabel('Featured Apps') *)
| VideoLabelled.                     (* page.getByLabel('Video') *)

(** What the management of the favourites asks of the session besides
    [World]: key-down and key-up events, and reads and expectations on
    the further locators. *)
Class Session (W : Type) `{World W} : Type := {
  keyboard_down : string -> W -> W;
  keyboard_up : string -> W -> W;
  app_count : AppLocator -> W -> Z * W;
  app_getAttribute : AppLocator -> string -> W -> Js.Nullable * W;
  app_expect_toBeVisible : AppLocator -> W -> bool * W
}.

Inductive Err : Type :=
| Error (message : string)   (* throw new Error(message) *)
| TimeoutError               (* a Playwright wait was rejected *)
| ExpectError                (* an expect(...) assertion failed *)
| TypeError.                 (* a property of [undefined] was read *)

Inductive Res (A : Type) : Type :=
| Ok (a : A)
| Throw (e : Err)
| OutOfFuel.
Arguments Ok {A} a.
Arguments Throw {A} e.
Arguments OutOfFuel {A}.

(** The world, the keys dispatched through [page.keyboard.press] (oldest
    first) and the messages passed to [console.warn] (oldest first). *)
Record St (W : Type) : Type := mkSt {
  page : W;
  sent : list string;
  warned : list string
}.
Arguments mkSt {W} _ _ _.
Arguments page {W} _.
Arguments sent {W} _.
Arguments warned {W} _.

Definition M (W A : Type) : Type := St W -> Res A * St W.

Definition ret {W A} (a : A) : M W A := fun s => (Ok a, s).

Definition bind {W A B} (m : M W A) (k : A -> M W B) : M W B :=
  fun s =>
    match m s with
    | (Ok a, s') => k a s'
    | (Throw e, s') => (Throw e, s')
    | (OutOfFuel, s') => (OutOfFuel, s')
    end.

Definition throw {W A} (e : Err) : M W A := fun s => (Throw e, s).

Declare Scope js_scope.
Delimit Scope js_scope with js.
Notation "x <- m ;; k" := (bind m (fun x => k))
  (at level 100, m at next level, right associativity) : js_scope.
Notation "m ;; k" := (bind m (fun _ => k))
  (at level 100, right associativity) : js_scope.
Local Open Scope js_scope.

(** Completion of a loop body: fall through to the next iteration with
    the loop's variables, [break], or [return r] from the function. *)
Inductive Completion (V R : Type) : Type :=
| Normal (v : V)
| Break (v : V)
| Return (r : R).
Arguments Normal {V R} v.
Arguments Break {V R} v.
Arguments Return {V R} r.

(** [n] iterations of a [for] loop from index [i]: [inl v] when the loop
    was left (exhausted or by [break]) with variables [v], [inr r] when
    its body returned [r]. *)
Fixpoint for_steps {W V R} (n : nat) (i : Z) (v : V)
    (body : Z -> V -> M W (Completion V R)) : M W (V + R) :=
  match n with
  | O => ret (inl v)
  | S n' =>
      c <- body i v ;;
      match c with
      | Normal v' => for_steps n' (i + 1) v' body
      | Break v' => ret (inl v')
      | Return r => ret (inr r)
      end
  end.

(** [for (let i = 0; i < bound; i++) body] *)
Definition for_lt {W V R} (bound : Z) (v : V)
    (body : Z -> V -> M W (Completion V R)) : M W (V + R) :=
  for_steps (Z.to_nat bound) 0 v body.

(** The loop configurations reached from [(i, v, s)] through iterations
    that fell through. *)
Inductive IterReach {W V R} (body : Z -> V -> M W (Completion V R))
    (i : Z) (v : V) (s : St W) : Z -> V -> St W -> Prop :=
| IterReach_here : IterReach body i v s i v s
| IterReach_next j u t u' t' :
    IterReach body i v s j u t ->
    body j u t = (Ok (Normal u'), t') ->
    IterReach body i v s (j + 1) u' t'.

Section Effects.
Context {W : Type} `{World W}.

Definition set_page (w : W) (s : St W) : St W :=
  mkSt w (sent s) (warned s).

(** An operation that only observes or awaits. *)
Definition observe {A} (f : W -> A * W) : M W A :=
  fun s => let (a, w) := f (page s) in (Ok a, set_page w s).

(** An awaited promise that is fulfilled or rejected with [e]. *)
Definition await_or (f : W -> bool * W) (e : Err) : M W unit :=
  ok <- observe f ;;
  if (ok : bool) then ret tt else throw e.

(** [await page.keyboard.press(key)] *)
Definition page_keyboard_press (key : string) : M W unit :=
  fun s => (Ok tt, mkSt (keyboard_press key (page s)) (sent s ++ [key]) (warned s)).

(** [await page.waitForTimeout(ms)] *)
Definition page_waitForTimeout (ms : Z) : M W unit :=
  fun s => (Ok tt, set_page (waitForTimeout ms (page s)) s).

(** [Date.now()] *)
Definition now : M W Z := fun s => (Ok (Date_now (page s)), s).

(** [console.warn(message)] *)
Definition console_warn (message : string) : M W unit :=
  fun s => (Ok tt, mkSt (page s) (sent s) (warned s ++ [message])).

End Effects.

(* ------------------------------------------------------------------ *)
(** ** src/utils/navigationHelpers.js *)

(** [normalise(value)]: [value ? value.toLowerCase().trim() : ''] *)
Definition normalise (value : Js.Nullable) : string :=
  match value with
  | Some s => if Js.truthy value then Js.trim (Js.toLowerCase s) else EmptyString
  | None => EmptyString
  end.

(** The double quote, for the messages that quote a name. *)
Definition dquote : string := String (ascii_of_nat 34) EmptyString.

Section NavigationHelpers.
Context {W : Type} `{World W}.

(** The loop of [waitForFocusChange]:
    [while (Date.now() - startTime < timeout) { ... }; return previousValue].
    [fuel] bounds the number of times the body runs. *)
Fixpoint waitForFocusChange_loop (fuel : nat) (getValueFn : W -> Js.Nullable * W)
    (previousValue : Js.Nullable) (timeout startTime : Z) : M W Js.Nullable :=
  t <- now ;;
  if t - startTime <? timeout then
    match fuel with
    | O => fun s => (OutOfFuel, s)
    | S fuel' =>
        currentValue <- observe getValueFn ;;
        if negb (Js.strict_eq currentValue previousValue) then
          ret currentValue
        else
          page_waitForTimeout TIMEOUTS.POLLING_INTERVAL ;;
          waitForFocusChange_loop fuel' getValueFn previousValue timeout startTime
    end
  else
    ret previousValue.

(** [waitForFocusChange(page, getValueFn, previousValue, timeout)] *)
Definition waitForFocusChange (fuel : nat) (getValueFn : W -> Js.Nullable * W)
    (previousValue : Js.Nullable) (timeout : Z) : M W Js.Nullable :=
  startTime <- now ;;
  waitForFocusChange_loop fuel getValueFn previousValue timeout startTime.

(** The message of [logNavigationFailure(context, target, lastFocused)]. *)
Definition navigationFailureMessage (context target : string)
    (lastFocused : Js.Nullable) : string :=
  ("[Navigation] Failed to find " ++ dquote ++ target ++ dquote
     ++ " during " ++ context ++ ". "
     ++ "Last focused element: " ++ dquote
     ++ match lastFocused with
        | Some l => if Js.truthy lastFocused then l else "none"
        | None => "none"
        end
     ++ dquote)%string.

(** [logNavigationFailure(context, target, lastFocused)] *)
Definition logNavigationFailure (context target : string)
    (lastFocused : Js.Nullable) : M W unit :=
  console_warn (navigationFailureMessage context target lastFocused).

(** The getter returned by [createTestIdFocusGetter(containerLocator)],
    with the default [focusSelector]. *)
Definition createTestIdFocusGetter (containerLocator : Locator)
    : W -> Js.Nullable * W :=
  fun w =>
    let focused := FocusedListItem containerLocator in
    let (n, w1) := locator_count focused w in
    if n =? 0 then (None, w1)
    else locator_getAttribute focused "data-testid" w1.

End NavigationHelpers.

(* ------------------------------------------------------------------ *)
(** ** src/utils/remoteControl.js *)

Module RemoteControl.

Definition keyPressDelay : Z := TIMEOUTS.KEY_PRESS_DELAY.

Module keys.
Definition UP : string := "ArrowUp".
Definition DOWN : string := "ArrowDown".
Definition LEFT : string := "ArrowLeft".
Definition RIGHT : string := "ArrowRight".
Definition SELECT : string := "Enter".
Definition BACK : string := "Escape".
End keys.

Section Methods.
Context {W : Type} `{World W}.

Definition pressKey (key : string) : M W unit :=
  page_keyboard_press key ;;
  if keyPressDelay >? 0 then page_waitForTimeout keyPressDelay else ret tt.

Definition pressKeyMultiple (key : string) (times : Z) : M W unit :=
  _ <- for_lt (R := unit) times tt
         (fun _ _ => pressKey key ;; ret (Normal tt)) ;;
  ret tt.

Definition moveUp (times : Z) : M W unit := pressKeyMultiple keys.UP times.
Definition moveDown (times : Z) : M W unit := pressKeyMultiple keys.DOWN times.
Definition moveLeft (times : Z) : M W unit := pressKeyMultiple keys.LEFT times.
Definition moveRight (times : Z) : M W unit := pressKeyMultiple keys.RIGHT times.
Definition select : M W unit := pressKey keys.SELECT.
Definition back : M W unit := pressKey keys.BACK.

End Methods.

Section Hold.
Context {W : Type} `{Session W}.

(** [holdSelect(duration)]: key down, suspension, key up.  The two
    events are not presses; they reach the page only. *)
Definition holdSelect (duration : Z) : M W unit :=
  (fun s => (Ok tt, set_page (keyboard_down keys.SELECT (page s)) s)) ;;
  page_waitForTimeout duration ;;
  (fun s => (Ok tt, set_page (keyboard_up keys.SELECT (page s)) s)).

End Hold.
End RemoteControl.

(* ------------------------------------------------------------------ *)
(** ** src/components/NavigationBar.js *)

Module NavigationBar.

(** A value of [menuItems]: [{ item, index }]. *)
Record MenuEntry : Type := mkEntry { item : Locator; index : Z }.

Definition searchItem : Locator := MenuItem "main-menu-item-0" "Search".
Definition homeItem : Locator := MenuItem "main-menu-item-1" "Home".
Definition tvGuideItem : Locator := MenuItem "main-menu-item-2" "Tv Guide".
Definition channelsItem : Locator := MenuItem "main-menu-item-3" "Channels".
Definition gamingItem : Locator := MenuItem "main-menu-item-4" "Gaming".
Definition freeItem : Locator := MenuItem "main-menu-item-5" "Free".
Definition appsItem : Locator := MenuItem "main-menu-item-6" "Apps".

(** The own properties of the object literal [this.menuItems], in the
    order [Object.keys] lists them. *)
Definition menuItems : list (string * MenuEntry) :=
  [ ("Search", mkEntry searchItem 0);
    ("Home", mkEntry homeItem 1);
    ("Tv Guide", mkEntry tvGuideItem 2);
    ("Channels", mkEntry channelsItem 3);
    ("Gaming", mkEntry gamingItem 4);
    ("Free", mkEntry freeItem 5);
    ("Apps", mkEntry appsItem 6) ].

(** The properties every object literal inherits from
    [Object.prototype]: eleven functions and the accessor [__proto__]. *)
Definition Object_prototype_keys : list string :=
  [ "constructor"; "hasOwnProperty"; "isPrototypeOf";
    "propertyIsEnumerable"; "toLocaleString"; "toString"; "valueOf";
    "__defineGetter__"; "__defineSetter__"; "__lookupGetter__";
    "__lookupSetter__"; "__proto__" ].

(** The value of [obj[key]] for an object literal [obj] whose own
    properties are menu entries. *)
Inductive Member : Type :=
| Own (e : MenuEntry)        (* an own property *)
| Inherited (key : string)   (* a member of [Object.prototype] *)
| Undefined.                 (* [undefined] *)

Definition get (obj : list (string * MenuEntry)) (key : string) : Member :=
  match find (fun kv => (fst kv =? key)%string) obj with
  | Some (_, e) => Own e
  | None =>
      if existsb (String.eqb key) Object_prototype_keys then Inherited key
      else Undefined
  end.

(** Truthiness: every object and function is truthy, [undefined] is not. *)
Definition truthy (m : Member) : bool :=
  match m with
  | Undefined => false
  | _ => true
  end.

(** [target.index]: a number, or [undefined], which arithmetic and
    comparison turn into [NaN]. *)
Definition member_index (m : Member) : option Z :=
  match m with
  | Own e => Some (index e)
  | _ => None
  end.

(** [target.item]: a locator, or [undefined]. *)
Definition member_item (m : Member) : option Locator :=
  match m with
  | Own e => Some (item e)
  | _ => None
  end.

(** [a > b], [a - b], [Math.abs(a)], [Math.min(a, b)] where [None] is [NaN]. *)
Definition js_gt (a b : option Z) : bool :=
  match a, b with
  | Some x, Some y => x >? y
  | _, _ => false
  end.
Definition js_sub (a b : option Z) : option Z :=
  match a, b with
  | Some x, Some y => Some (x - y)
  | _, _ => None
  end.
Definition Math_abs (a : option Z) : option Z := option_map Z.abs a.
Definition Math_min (a b : option Z) : option Z :=
  match a, b with
  | Some x, Some y => Some (Z.min x y)
  | _, _ => None
  end.

(** [Object.keys(obj).join(', ')] *)
Definition keys_joined (obj : list (string * MenuEntry)) : string :=
  String.concat ", " (map fst obj).

Definition unknownMenuItemMessage (menuName : string) : string :=
  ("Unknown menu item: " ++ dquote ++ menuName ++ dquote
     ++ ". Valid items: " ++ keys_joined menuItems)%string.

Section Methods.
Context {W : Type} `{World W}.

(** [for (let i = 0; i < bound; i++)] where [bound] may be [NaN]:
    [0 < NaN] is false. *)
Definition for_lt_num {V R} (bound : option Z) (v : V)
    (body : Z -> V -> M W (Completion V R)) : M W (V + R) :=
  match bound with
  | Some b => for_lt b v body
  | None => ret (inl v)
  end.

(** [await target.item.getAttribute(name)] *)
Definition item_getAttribute (target : Member) (name : string)
    : M W Js.Nullable :=
  match member_item target with
  | Some l => observe (locator_getAttribute l name)
  | None => throw TypeError
  end.

(** [await expect(target.item).toHaveAttribute(name, value)] *)
Definition expect_item_toHaveAttribute (target : Member) (name value : string)
    : M W unit :=
  match member_item target with
  | Some l => await_or (expect_toHaveAttribute l name value) ExpectError
  | None => throw ExpectError
  end.

(** One iteration of either navigation loop; [move] is
    [remote.moveRight()] or [remote.moveLeft()]. *)
Definition menu_step (target : Member) (move : M W unit)
    (i : Z) (v : unit) : M W (Completion unit unit) :=
  isFocused <- item_getAttribute target "data-focused" ;;
  if Js.strict_eq isFocused (Some "focused") then ret (Break tt)
  else move ;; ret (Normal tt).

(** [navigateToMenuItemByName(remote, menuName, maxSteps)] *)
Definition navigateToMenuItemByName (menuName : string) (maxSteps : Z)
    : M W (option Locator) :=
  let target := get menuItems menuName in
  if negb (truthy target) then
    throw (Error (unknownMenuItemMessage menuName))
  else
    RemoteControl.moveUp 2 ;;
    await_or (expect_toHaveAttribute homeItem "data-focused" "focused")
             ExpectError ;;
    let homeIndex := Some 1 in
    let direction :=
      if js_gt (member_index target) homeIndex then "right" else "left" in
    let steps := Math_abs (js_sub (member_index target) homeIndex) in
    _ <- (if (direction =? "right")%string then
            for_lt_num (Math_min steps (Some maxSteps)) tt
              (menu_step target (RemoteControl.moveRight 1))
          else
            for_lt_num (Math_min steps (Some maxSteps)) tt
              (menu_step target (RemoteControl.moveLeft 1))) ;;
    expect_item_toHaveAttribute target "data-focused" "focused" ;;
    ret (member_item target).

End Methods.
End NavigationBar.

(* ------------------------------------------------------------------ *)
(** ** src/pages/HomeScreenPage.js *)

Module HomeScreenPage.

Section Methods.
Context {W : Type} `{World W}.

(** [waitForHomeScreen()]: [waitForPageLoad('networkidle')], then
    [expect(this.nav.root).toBeVisible(...)]. *)
Definition waitForHomeScreen : M W unit :=
  await_or (waitForLoadState "networkidle") TimeoutError ;;
  await_or (expect_toBeVisible NavRoot) ExpectError.

(** The body of the loop of [navigateToApp]. *)
Definition navigateToApp_step (fuel : nat) (appName target : string)
    (getFocusedAppTestId : W -> Js.Nullable * W)
    (i : Z) (v : unit) : M W (Completion unit bool) :=
  currentId <- observe getFocusedAppTestId ;;
  if Js.truthy currentId && (normalise currentId =? target)%string then
    ret (Return true)
  else
    RemoteControl.moveRight 1 ;;
    newId <- waitForFocusChange fuel getFocusedAppTestId currentId
               TIMEOUTS.FOCUS_CHANGE ;;
    if Js.strict_eq newId currentId then
      logNavigationFailure "app navigation in Favourite Apps rail"
        appName currentId ;;
      ret (Return false)
    else
      ret (Normal tt).

(** [navigateToApp(appName, maxSteps)] *)
Definition navigateToApp (fuel : nat) (appName : string) (maxSteps : Z)
    : M W bool :=
  let favouriteAppsRail := FavouriteAppsRail in
  await_or (locator_waitFor_visible favouriteAppsRail) TimeoutError ;;
  let getFocusedAppTestId := createTestIdFocusGetter favouriteAppsRail in
  let target := normalise (Some appName) in
  r <- for_lt maxSteps tt
         (navigateToApp_step fuel appName target getFocusedAppTestId) ;;
  match r with
  | inr b => ret b
  | inl _ =>
      logNavigationFailure "app navigation (max steps reached)" appName None ;;
      ret false
  end.

(** [isVideoRailItemFocused] of [addAppToFavoritesFromAppsPage]. *)
Definition isVideoRailItemFocused : M W bool :=
  n <- observe (locator_count (FocusedListItem VideoRail)) ;;
  ret (n >? 0).

(** The body of the first loop of [addAppToFavoritesFromAppsPage]:
    move down until an item of the Video rail is focused. *)
Definition enterVideoRail_step (i : Z) (v : unit)
    : M W (Completion unit bool) :=
  RemoteControl.moveDown 1 ;;
  hasFocus <- isVideoRailItemFocused ;;
  if (hasFocus : bool) then ret (Break tt)
  else
    (if i <? NAVIGATION_LIMITS.MAX_DOWN_STEPS - 1 then
       await_or (waitForLoadState "domcontentloaded") TimeoutError
     else ret tt) ;;
    ret (Normal tt).

(** The body of the second loop of [addAppToFavoritesFromAppsPage];
    the loop variable is [previousTestId]. *)
Definition videoRailSearch_step (fuel : nat) (appName : string)
    (getFocusedTestId : W -> Js.Nullable * W)
    (i : Z) (previousTestId : Js.Nullable)
    : M W (Completion Js.Nullable bool) :=
  currentTestId <- observe getFocusedTestId ;;
  if Js.strict_eq currentTestId (Some appName) then
    ret (Break previousTestId)
  else if Js.strict_eq currentTestId None
          || ((i >? 0) && Js.strict_eq currentTestId previousTestId) then
    logNavigationFailure "Video rail app search" appName previousTestId ;;
    ret (Return false)
  else
    let previousTestId := currentTestId in
    RemoteControl.moveRight 1 ;;
    newTestId <- waitForFocusChange fuel getFocusedTestId currentTestId
                   TIMEOUTS.POLLING ;;
    if Js.strict_eq newTestId currentTestId then
      logNavigationFailure "Video rail navigation (end of rail)"
        appName currentTestId ;;
      ret (Return false)
    else
      ret (Normal previousTestId).

(** What follows the second loop: the final verification, then the
    key presses that add the focused app. *)
Definition addFocusedAppToFavorites (appName : string)
    (getFocusedTestId : W -> Js.Nullable * W) : M W bool :=
  finalTestId <- observe getFocusedTestId ;;
  if negb (Js.strict_eq finalTestId (Some appName)) then
    logNavigationFailure "Video rail final verification" appName finalTestId ;;
    ret false
  else
    RemoteControl.select ;;
    await_or (expect_toHaveAttribute FavButton "data-focused" "true")
             ExpectError ;;
    RemoteControl.select ;;
    waitForHomeScreen ;;
    RemoteControl.select ;;
    ret true.

(** The second loop and what follows it, from [let previousTestId = null]. *)
Definition videoRailSearch (fuel : nat) (appName : string)
    (getFocusedTestId : W -> Js.Nullable * W) : M W bool :=
  let previousTestId : Js.Nullable := None in
  r <- for_lt NAVIGATION_LIMITS.MAX_APP_SEARCH_STEPS previousTestId
         (videoRailSearch_step fuel appName getFocusedTestId) ;;
  match r with
  | inr b => ret b
  | inl _ => addFocusedAppToFavorites appName getFocusedTestId
  end.

(** [addAppToFavoritesFromAppsPage(appName)] *)
Definition addAppToFavoritesFromAppsPage (fuel : nat) (appName : string)
    : M W bool :=
  let videoRail := VideoRail in
  let getFocusedTestId := createTestIdFocusGetter videoRail in
  _ <- for_lt NAVIGATION_LIMITS.MAX_DOWN_STEPS tt enterVideoRail_step ;;
  focused <- isVideoRailItemFocused ;;
  if negb focused then
    console_warn
      ("[HomeScreenPage] Could not focus any item in Video rail while adding "
         ++ dquote ++ appName ++ dquote)%string ;;
    ret false
  else
    videoRailSearch fuel appName getFocusedTestId.

End Methods.

Section Favourites.
Context {W : Type} `{Session W}.

(** [console.info(message)]: written to a stream the state does not
    record. *)
Definition console_info (message : string) : M W unit := ret tt.

(** [isAppInFavorites(appName)] *)
Definition isAppInFavorites (appName : string) : M W bool :=
  n <- observe (app_count (FavouriteListItem appName)) ;;
  ret (n >? 0).

(** [navigateToAppsPage()] *)
Definition navigateToAppsPage : M W unit :=
  NavigationBar.navigateToMenuItemByName "Apps" NAVIGATION_LIMITS.MAX_MENU_STEPS ;;
  RemoteControl.select ;;
  await_or (app_expect_toBeVisible ListsContainer) ExpectError ;;
  await_or (app_expect_toBeVisible FeaturedAppsRail) ExpectError ;;
  await_or (app_expect_toBeVisible VideoLabelled) ExpectError.

(** [ensureNetflixInFavorites()] *)
Definition ensureNetflixInFavorites (fuel : nat) : M W unit :=
  inFavorites <- isAppInFavorites "Netflix" ;;
  if (inFavorites : bool) then ret tt
  else
    console_info
      "[HomeScreenPage] Netflix not in favorites, attempting to add it..." ;;
    navigateToAppsPage ;;
    added <- addAppToFavoritesFromAppsPage fuel "Netflix" ;;
    if negb added then
      throw (Error "Netflix app not found in the Video rail on Apps page")
    else
      console_info "[HomeScreenPage] Netflix successfully added to favorites".

(** [removeAppFromFavoritesIfExists(appName)] *)
Definition removeAppFromFavoritesIfExists (fuel : nat) (appName : string)
    : M W bool :=
  inFavorites <- isAppInFavorites appName ;;
  if negb inFavorites then
    console_info
      ("[HomeScreenPage] App " ++ dquote ++ appName ++ dquote
         ++ " not in favorites, nothing to remove")%string ;;
    ret false
  else
    found <- navigateToApp fuel appName NAVIGATION_LIMITS.MAX_RAIL_STEPS ;;
    if negb found then
      console_warn
        ("[HomeScreenPage] Could not navigate to " ++ dquote ++ appName
           ++ dquote ++ " in favorites rail")%string ;;
      ret false
    else
      RemoteControl.holdSelect TIMEOUTS.LONG_PRESS_DURATION ;;
      let deleteButton := RemoveAppButton in
      deleteButtonState <- observe (app_getAttribute deleteButton "data-focused") ;;
      if Js.strict_eq deleteButtonState (Some "disabled") then
        console_warn
          ("[HomeScreenPage] App " ++ dquote ++ appName ++ dquote
             ++ " is protected and cannot be deleted")%string ;;
        RemoteControl.back ;;
        ret false
      else
        RemoteControl.moveDown 1 ;;
        RemoteControl.select ;;
        console_info
          ("[HomeScreenPage] App " ++ dquote ++ appName ++ dquote
             ++ " removed from favorites")%string ;;
        ret true.

End Favourites.
End HomeScreenPage.

(* ------------------------------------------------------------------ *)
(** ** Observations used to state the properties *)

Section Observations.
Context {W : Type} `{World W}.

(** The state after [pressKey(key)]: the key is dispatched, then the
    settling delay passes. *)
Definition pressed (key : string) (s : St W) : St W :=
  mkSt (waitForTimeout RemoteControl.keyPressDelay (keyboard_press key (page s)))
       (sent s ++ [key]) (warned s).

(** The state after [console.warn(message)]. *)
Definition logged (message : string) (s : St W) : St W :=
  mkSt (page s) (sent s) (warned s ++ [message]).

(** A read never sets the clock back. *)
Definition monotone_read (getValueFn : W -> Js.Nullable * W) : Prop :=
  forall w, Date_now w <= Date_now (snd (getValueFn w)).

(** The world in which [waitForFocusChange] makes its poll number [k]
    (from 0) when it starts in [w] and no earlier poll ended it: each
    poll is followed by a suspension of [POLLING_INTERVAL]. *)
Fixpoint poll_world (getValueFn : W -> Js.Nullable * W) (k : nat) (w : W) : W :=
  match k with
  | O => w
  | S k' =>
      poll_world getValueFn k'
        (waitForTimeout TIMEOUTS.POLLING_INTERVAL (snd (getValueFn w)))
  end.

(** The token that poll number [k] returns. *)
Definition polled (getValueFn : W -> Js.Nullable * W) (k : nat) (w : W)
    : Js.Nullable :=
  fst (getValueFn (poll_world getValueFn k w)).

(** Time elapsed since the start when poll number [k] is due. *)
Definition elapsed (getValueFn : W -> Js.Nullable * W) (k : nat) (w : W) : Z :=
  Date_now (poll_world getValueFn k w) - Date_now w.

(** Polls that a timeout allows when every suspension lasts at least
    [POLLING_INTERVAL]. *)
Definition polls_bound (timeout : Z) : nat :=
  Z.to_nat ((timeout + TIMEOUTS.POLLING_INTERVAL - 1) / TIMEOUTS.POLLING_INTERVAL).

(** The world in which a navigation loop of the menu bar makes its
    check number [k] (from 0) when no earlier check ended it. *)
Fixpoint menu_world (l : Locator) (key : string) (k : nat) (w : W) : W :=
  match k with
  | O => w
  | S k' =>
      menu_world l key k'
        (waitForTimeout RemoteControl.keyPressDelay
           (keyboard_press key (snd (locator_getAttribute l "data-focused" w))))
  end.

(** Whether check number [k] finds the item focused. *)
Definition menu_focused (l : Locator) (key : string) (k : nat) (w : W) : bool :=
  Js.strict_eq
    (fst (locator_getAttribute l "data-focused" (menu_world l key k w)))
    (Some "focused").

End Observations.

(** A menu bar that behaves as a cursor: [pos] is the index of the
    focused item.  Reads, expectations and suspensions leave it alone,
    the right and left keys move it by one between 0 and 6, and the
    [data-focused] attribute of an item of [menuItems] tells whether the
    cursor is on it. *)
Class MenuBarLaws (W : Type) `{World W} (pos : W -> Z) : Prop := {
  menu_attribute :
    forall name e w,
      In (name, e) NavigationBar.menuItems ->
      Js.strict_eq
        (fst (locator_getAttribute (NavigationBar.item e) "data-focused" w))
        (Some "focused") = true
      <-> pos w = NavigationBar.index e;
  menu_attribute_pos :
    forall l a w, pos (snd (locator_getAttribute l a w)) = pos w;
  menu_expect :
    forall name e w,
      In (name, e) NavigationBar.menuItems ->
      fst (expect_toHaveAttribute (NavigationBar.item e)
             "data-focused" "focused" w) = true
      <-> pos w = NavigationBar.index e;
  menu_expect_pos :
    forall l a v w, pos (snd (expect_toHaveAttribute l a v w)) = pos w;
  menu_wait_pos :
    forall ms w, pos (waitForTimeout ms w) = pos w;
  menu_right :
    forall w, pos (keyboard_press RemoteControl.keys.RIGHT w)
              = Z.min 6 (pos w + 1);
  menu_left :
    forall w, pos (keyboard_press RemoteControl.keys.LEFT w)
              = Z.max 0 (pos w - 1)
}.

(** *** Strings that differ only by case and by surrounding white space *)

(** Two code units that are one letter, in the same or in different case. *)
Definition same_letter (a b : ascii) : Prop :=
  a = b \/ Js.toLowerChar a = b \/ a = Js.toLowerChar b.

Definition all_white (l : list ascii) : Prop :=
  Forall (fun c => Js.isWhiteSpace c = true) l.

(** [s] is [core] with white space before and after it. *)
Definition padded (core s : list ascii) : Prop :=
  exists l r, all_white l /\ all_white r /\ s = l ++ core ++ r.

(** [a] and [b] differ only by letter case and by leading or trailing
    white space. *)
Definition same_up_to_case_and_padding (a b : string) : Prop :=
  exists ca cb,
    padded ca (list_ascii_of_string a)
    /\ padded cb (list_ascii_of_string b)
    /\ Forall2 same_letter ca cb.

(* ------------------------------------------------------------------ *)
(** ** A scripted page, to run the code on

    The focused list item of either rail reads its [data-testid] from a
    tape: every read of the attribute consumes one entry, the last entry
    stays.  The menu bar keeps a position that the left and right keys
    move between 0 and 6.  Time passes only in [waitForTimeout]. *)

Module Scripted.

Record Tape : Type := mkTape {
  clock : Z;
  tape : list Js.Nullable;
  menu_pos : Z
}.

Definition head (t : Tape) : Js.Nullable :=
  match tape t with
  | x :: _ => x
  | [] => None
  end.

Definition advance (t : Tape) : Tape :=
  match tape t with
  | _ :: (_ :: _) as rest => mkTape (clock t) rest (menu_pos t)
  | _ => t
  end.

Definition press (key : string) (t : Tape) : Tape :=
  if (key =? "ArrowRight")%string then
    mkTape (clock t) (tape t) (Z.min 6 (menu_pos t + 1))
  else if (key =? "ArrowLeft")%string then
    mkTape (clock t) (tape t) (Z.max 0 (menu_pos t - 1))
  else t.

Definition menu_index (l : Locator) : option Z :=
  match l with
  | MenuItem _ name =>
      match NavigationBar.get NavigationBar.menuItems name with
      | NavigationBar.Own e => Some (NavigationBar.index e)
      | _ => None
      end
  | _ => None
  end.

Definition attribute (l : Locator) (name : string) (t : Tape)
    : Js.Nullable * Tape :=
  match l with
  | FocusedListItem _ => (head t, advance t)
  | MenuItem _ _ =>
      match menu_index l with
      | Some i => (if i =? menu_pos t then Some "focused" else None, t)
      | None => (None, t)
      end
  | _ => (None, t)
  end.

Definition count (l : Locator) (t : Tape) : Z * Tape :=
  match l with
  | FocusedListItem _ =>
      match head t with
      | Some _ => (1, t)
      | None => (0, advance t)
      end
  | _ => (1, t)
  end.

Definition has_attribute (l : Locator) (name value : string) (t : Tape)
    : bool * Tape :=
  let (v, t') := attribute l name t in
  match l with
  | MenuItem _ _ => (Js.strict_eq v (Some value), t')
  | _ => (true, t)
  end.

#[global] Instance world : World Tape := {
  keyboard_press := press;
  waitForTimeout := fun ms t => mkTape (clock t + ms) (tape t) (menu_pos t);
  Date_now := clock;
  waitForLoadState := fun _ t => (true, t);
  locator_count := count;
  locator_getAttribute := attribute;
  locator_waitFor_visible := fun _ t => (true, t);
  expect_toHaveAttribute := has_attribute;
  expect_toBeVisible := fun _ t => (true, t)
}.

(** An app is among the favourites when the tape holds its name; the
    button that removes the focused app is disabled for "Watch TV". *)
Definition favourite_count (l : AppLocator) (t : Tape) : Z * Tape :=
  match l with
  | FavouriteListItem name =>
      (if existsb (Js.strict_eq (Some name)) (tape t) then 1 else 0, t)
  | _ => (1, t)
  end.

Definition favourite_attribute (l : AppLocator) (name : string) (t : Tape)
    : Js.Nullable * Tape :=
  match l with
  | RemoveAppButton =>
      (if Js.strict_eq (head t) (Some "Watch TV")
       then Some "disabled" else Some "false", t)
  | _ => (None, t)
  end.

#[global] Instance session : Session Tape := {
  keyboard_down := fun _ t => t;
  keyboard_up := fun _ t => t;
  app_count := favourite_count;
  app_getAttribute := favourite_attribute;
  app_expect_toBeVisible := fun _ t => (true, t)
}.

(** A session at time 0 with nothing sent or logged, Home focused in
    the menu bar. *)
Definition start (tokens : list Js.Nullable) : St Tape :=
  mkSt (mkTape 0 tokens 1) [] [].

End Scripted.

(* ================================================================== *)
(** * Properties *)

Ltac unfold_effects :=
  unfold bind, ret, throw, observe, await_or, now, page_waitForTimeout,
    page_keyboard_press, console_warn, logNavigationFailure, set_page in *;
  cbn [page sent warned fst snd] in *.

(** ** The model at work *)

Example normalise_padded_mixed_case :
  normalise (Some "  NetFlix ") = "netflix".
Proof. reflexivity. Qed.

Example normalise_null : normalise None = EmptyString.
Proof. reflexivity. Qed.

Example normalise_white_only : normalise (Some "   ") = EmptyString.
Proof. reflexivity. Qed.

Example menuItems_Apps :
  NavigationBar.get NavigationBar.menuItems "Apps"
  = NavigationBar.Own (NavigationBar.mkEntry NavigationBar.appsItem 6).
Proof. reflexivity. Qed.

Example menuItems_unknown :
  NavigationBar.get NavigationBar.menuItems "Netflix" = NavigationBar.Undefined.
Proof. reflexivity. Qed.

Example menuItems_toString :
  NavigationBar.get NavigationBar.menuItems "toString"
  = NavigationBar.Inherited "toString".
Proof. reflexivity. Qed.

Example navigateToMenuItemByName_Search :
  NavigationBar.navigateToMenuItemByName "Search"
    NAVIGATION_LIMITS.MAX_MENU_STEPS (Scripted.start [])
  = (Ok (Some NavigationBar.searchItem),
     mkSt (Scripted.mkTape 300 [] 0) ["ArrowUp"; "ArrowUp"; "ArrowLeft"] []).
Proof. reflexivity. Qed.

Example navigateToApp_second_app :
  HomeScreenPage.navigateToApp 10 "Netflix" NAVIGATION_LIMITS.MAX_RAIL_STEPS
    (Scripted.start [Some "watch-tv"; Some "netflix"; Some "netflix"])
  = (Ok true, mkSt (Scripted.mkTape 100 [Some "netflix"] 2) ["ArrowRight"] []).
Proof. reflexivity. Qed.

Example addAppToFavoritesFromAppsPage_third_app :
  HomeScreenPage.addAppToFavoritesFromAppsPage 20 "c"
    (Scripted.start [Some "a"; Some "b"; Some "c"])
  = (Ok true,
     mkSt (Scripted.mkTape 500 [Some "c"] 2)
       ["ArrowDown"; "ArrowRight"; "Enter"; "Enter"; "Enter"] []).
Proof. reflexivity. Qed.

(** ** Values *)

Lemma strict_eq_true_iff (a b : Js.Nullable) :
  Js.strict_eq a b = true <-> a = b.
Proof.
  destruct a as [x|], b as [y|]; cbn; split; intro E;
    try discriminate; try reflexivity.
  - apply String.eqb_eq in E. now subst.
  - inversion E. apply String.eqb_refl.
Qed.

Lemma strict_eq_false_iff (a b : Js.Nullable) :
  Js.strict_eq a b = false <-> a <> b.
Proof.
  split.
  - intros E Eq. apply strict_eq_true_iff in Eq. congruence.
  - intro N. destruct (Js.strict_eq a b) eqn:E; [|reflexivity].
    apply strict_eq_true_iff in E. contradiction.
Qed.

Lemma strict_eq_refl (a : Js.Nullable) : Js.strict_eq a a = true.
Proof. now apply strict_eq_true_iff. Qed.

Lemma set_page_same {W} (s : St W) : set_page (page s) s = s.
Proof. now destruct s. Qed.

Lemma set_page_twice {W} (w w' : W) (s : St W) :
  set_page w (set_page w' s) = set_page w s.
Proof. reflexivity. Qed.

(** ** The focus observer *)

Section FocusObserver.
Context {W : Type} `{World W}.
Variable getValueFn : W -> Js.Nullable * W.
Variable previousValue : Js.Nullable.
Variable timeout : Z.

(** One turn of the loop. *)
Lemma waitForFocusChange_loop_unfold (fuel : nat) (startTime : Z) (s : St W) :
  waitForFocusChange_loop fuel getValueFn previousValue timeout startTime s =
  if Date_now (page s) - startTime <? timeout then
    match fuel with
    | O => (OutOfFuel, s)
    | S fuel' =>
        if Js.strict_eq (fst (getValueFn (page s))) previousValue then
          waitForFocusChange_loop fuel' getValueFn previousValue timeout startTime
            (set_page (waitForTimeout TIMEOUTS.POLLING_INTERVAL
                         (snd (getValueFn (page s)))) s)
        else
          (Ok (fst (getValueFn (page s))), set_page (snd (getValueFn (page s))) s)
    end
  else (Ok previousValue, s).
Proof.
  destruct fuel; cbn [waitForFocusChange_loop]; unfold_effects;
    destruct (Date_now (page s) - startTime <? timeout); try reflexivity.
  destruct (getValueFn (page s)) as [cur w1]; cbn [fst snd].
  destruct (Js.strict_eq cur previousValue); reflexivity.
Qed.

(** What the loop returns, in terms of the polls it makes, once it has
    fuel for the time that is left. *)
Lemma waitForFocusChange_loop_spec :
  monotone_read getValueFn ->
  (forall ms w, Date_now w + ms <= Date_now (waitForTimeout ms w)) ->
  forall (fuel : nat) (startTime : Z) (s : St W),
    timeout - (Date_now (page s) - startTime)
      <= TIMEOUTS.POLLING_INTERVAL * Z.of_nat fuel ->
    exists (k : nat) (v : Js.Nullable) (w' : W),
      waitForFocusChange_loop fuel getValueFn previousValue timeout startTime s
        = (Ok v, set_page w' s)
      /\ (forall j, (j < k)%nat ->
            Date_now (poll_world getValueFn j (page s)) - startTime < timeout
            /\ polled getValueFn j (page s) = previousValue)
      /\ ((v <> previousValue
           /\ Date_now (poll_world getValueFn k (page s)) - startTime < timeout
           /\ polled getValueFn k (page s) = v
           /\ w' = snd (getValueFn (poll_world getValueFn k (page s))))
          \/ (v = previousValue
              /\ timeout <= Date_now (poll_world getValueFn k (page s)) - startTime
              /\ w' = poll_world getValueFn k (page s))).
Proof.
  intros Hmono Hwait fuel startTime.
  unfold TIMEOUTS.POLLING_INTERVAL.
  induction fuel as [|fuel IH]; intros s Hfuel;
    rewrite waitForFocusChange_loop_unfold;
    destruct (Date_now (page s) - startTime <? timeout) eqn:Hguard;
    try (apply Z.ltb_lt in Hguard); try (apply Z.ltb_ge in Hguard).
  - lia.
  - exists O, previousValue, (page s). rewrite set_page_same.
    split; [reflexivity|]. split; [intros j Hj; lia|].
    right. cbn. auto.
  - destruct (Js.strict_eq (fst (getValueFn (page s))) previousValue) eqn:Heq.
    + apply strict_eq_true_iff in Heq.
      set (s2 := set_page (waitForTimeout TIMEOUTS.POLLING_INTERVAL
                             (snd (getValueFn (page s)))) s).
      destruct (IH s2) as (k & v & w' & Hrun & Hbefore & Hend).
      { subst s2. cbn [page set_page].
        pose proof (Hmono (page s)).
        pose proof (Hwait TIMEOUTS.POLLING_INTERVAL (snd (getValueFn (page s)))).
        unfold TIMEOUTS.POLLING_INTERVAL in *. lia. }
      exists (S k), v, w'. rewrite Hrun. split; [reflexivity|].
      split.
      * intros [|j] Hj.
        -- cbn. split; [assumption|]. unfold polled. cbn. assumption.
        -- apply Hbefore. lia.
      * exact Hend.
    + apply strict_eq_false_iff in Heq.
      exists O, (fst (getValueFn (page s))), (snd (getValueFn (page s))).
      split; [reflexivity|]. split; [intros j Hj; lia|].
      left. cbn. unfold polled. cbn. auto.
  - exists O, previousValue, (page s). rewrite set_page_same.
    split; [reflexivity|]. split; [intros j Hj; lia|].
    right. cbn. auto.
Qed.

Lemma polls_bound_enough (fuel : nat) :
  (polls_bound timeout <= fuel)%nat ->
  timeout <= TIMEOUTS.POLLING_INTERVAL * Z.of_nat fuel.
Proof.
  unfold polls_bound, TIMEOUTS.POLLING_INTERVAL. intro Hle.
  destruct (Z.le_gt_cases timeout 0) as [Hneg|Hpos]; [lia|].
  assert (Hq : (timeout + 50 - 1) / 50 <= Z.of_nat fuel).
  { assert (0 <= (timeout + 50 - 1) / 50) by (apply Z.div_pos; lia). lia. }
  pose proof (Z.div_mod (timeout + 50 - 1) 50 ltac:(lia)).
  pose proof (Z.mod_pos_bound (timeout + 50 - 1) 50 ltac:(lia)).
  lia.
Qed.

(** [waitForFocusChange] returns a token and leaves the keys and the
    log alone. *)
Lemma waitForFocusChange_returns (fuel : nat) (s : St W) :
  monotone_read getValueFn ->
  (forall ms w, Date_now w + ms <= Date_now (waitForTimeout ms w)) ->
  (polls_bound timeout <= fuel)%nat ->
  exists v w',
    waitForFocusChange fuel getValueFn previousValue timeout s
      = (Ok v, set_page w' s).
Proof.
  intros Hmono Hwait Hfuel.
  unfold waitForFocusChange. unfold_effects.
  destruct (waitForFocusChange_loop_spec Hmono Hwait fuel (Date_now (page s)) s)
    as (k & v & w' & Hrun & _).
  { pose proof (polls_bound_enough fuel Hfuel). lia. }
  exists v, w'. exact Hrun.
Qed.

End FocusObserver.

Section PollTimes.
Context {W : Type} `{World W}.
Variable getValueFn : W -> Js.Nullable * W.
Hypothesis Hmono : monotone_read getValueFn.
Hypothesis Hwait : forall ms w, Date_now w + ms <= Date_now (waitForTimeout ms w).

Lemma poll_world_later (k : nat) (w : W) :
  Date_now (poll_world getValueFn k w)
    <= Date_now (poll_world getValueFn (S k) w).
Proof.
  revert w. induction k as [|k IH]; intro w.
  - cbn. pose proof (Hmono w).
    pose proof (Hwait TIMEOUTS.POLLING_INTERVAL (snd (getValueFn w))).
    unfold TIMEOUTS.POLLING_INTERVAL in *. lia.
  - change (poll_world getValueFn (S (S k)) w)
      with (poll_world getValueFn (S k)
              (waitForTimeout TIMEOUTS.POLLING_INTERVAL (snd (getValueFn w)))).
    change (poll_world getValueFn (S k) w)
      with (poll_world getValueFn k
              (waitForTimeout TIMEOUTS.POLLING_INTERVAL (snd (getValueFn w)))).
    apply IH.
Qed.

Lemma elapsed_monotone (j k : nat) (w : W) :
  (j <= k)%nat -> elapsed getValueFn j w <= elapsed getValueFn k w.
Proof.
  unfold elapsed. induction 1 as [|k Hle IH]; [lia|].
  pose proof (poll_world_later k w). lia.
Qed.

End PollTimes.

Lemma createTestIdFocusGetter_monotone {W : Type} `{ClockLaws W} (c : Locator) :
  monotone_read (createTestIdFocusGetter c).
Proof.
  intro w. unfold createTestIdFocusGetter.
  pose proof (locator_count_monotone (FocusedListItem c) w) as Hc.
  destruct (locator_count (FocusedListItem c) w) as [n w1]. cbn [snd] in Hc.
  destruct (n =? 0); cbn [snd]; [exact Hc|].
  pose proof (locator_getAttribute_monotone (FocusedListItem c) "data-testid" w1).
  lia.
Qed.

Lemma Scripted_advance_clock (t : Scripted.Tape) :
  Scripted.clock (Scripted.advance t) = Scripted.clock t.
Proof.
  unfold Scripted.advance. destruct (Scripted.tape t) as [|? [|? ?]]; reflexivity.
Qed.

#[global] Instance Scripted_clock_laws : ClockLaws Scripted.Tape.
Proof.
  split.
  - intros ms w. cbn. lia.
  - intros l w. destruct l; cbn; try lia.
    destruct (Scripted.head w); cbn [snd];
      rewrite ?Scripted_advance_clock; lia.
  - intros l a w. destruct l; cbn; rewrite ?Scripted_advance_clock; try lia.
    destruct (NavigationBar.get NavigationBar.menuItems name); cbn; lia.
Qed.

(** C3.  [waitForFocusChange] polls the accessor, suspending for
    [POLLING_INTERVAL] after each poll that shows no change.  With a
    clock that advances it ends without throwing, and for some [k]:
    polls [0..k-1] were made within the timeout and returned
    [previousValue]; then either poll [k] was made within the timeout,
    returned a different token, and that token is returned at once (the
    world is the one right after that poll), or the timeout had elapsed
    when poll [k] was due and [previousValue] is returned.  In
    particular, when the polls return "A", "A", "B" and the third poll is
    within the timeout, "B" is returned for [previousValue] "A". *)
Theorem waitForFocusChange_first_change :
  forall (W : Type) (H : World W) (getValueFn : W -> Js.Nullable * W)
         (previousValue : Js.Nullable) (timeout : Z) (fuel : nat) (s : St W),
    monotone_read getValueFn ->
    (forall ms w, Date_now w + ms <= Date_now (waitForTimeout ms w)) ->
    (polls_bound timeout <= fuel)%nat ->
    (exists (k : nat) (v : Js.Nullable) (w' : W),
        waitForFocusChange fuel getValueFn previousValue timeout s
          = (Ok v, set_page w' s)
        /\ (forall j, (j < k)%nat ->
              elapsed getValueFn j (page s) < timeout
              /\ polled getValueFn j (page s) = previousValue)
        /\ ((v <> previousValue
             /\ elapsed getValueFn k (page s) < timeout
             /\ polled getValueFn k (page s) = v
             /\ w' = snd (getValueFn (poll_world getValueFn k (page s))))
            \/ (v = previousValue
                /\ timeout <= elapsed getValueFn k (page s)
                /\ w' = poll_world getValueFn k (page s))))
    /\ (previousValue = Some "A" ->
        polled getValueFn 0 (page s) = Some "A" ->
        polled getValueFn 1 (page s) = Some "A" ->
        polled getValueFn 2 (page s) = Some "B" ->
        elapsed getValueFn 2 (page s) < timeout ->
        fst (waitForFocusChange fuel getValueFn previousValue timeout s)
          = Ok (Some "B")).
Proof.
  intros W H getValueFn previousValue timeout fuel s Hmono Hwait Hfuel.
  assert (Hspec :
    exists (k : nat) (v : Js.Nullable) (w' : W),
        waitForFocusChange fuel getValueFn previousValue timeout s
          = (Ok v, set_page w' s)
        /\ (forall j, (j < k)%nat ->
              elapsed getValueFn j (page s) < timeout
              /\ polled getValueFn j (page s) = previousValue)
        /\ ((v <> previousValue
             /\ elapsed getValueFn k (page s) < timeout
             /\ polled getValueFn k (page s) = v
             /\ w' = snd (getValueFn (poll_world getValueFn k (page s))))
            \/ (v = previousValue
                /\ timeout <= elapsed getValueFn k (page s)
                /\ w' = poll_world getValueFn k (page s)))).
  { unfold waitForFocusChange, elapsed. unfold_effects.
    apply waitForFocusChange_loop_spec; try assumption.
    pose proof (polls_bound_enough timeout fuel Hfuel). lia. }
  split; [exact Hspec|].
  intros Hprev H0 H1 H2 Hin.
  destruct Hspec as (k & v & w' & Hrun & Hbefore & Hend).
  rewrite Hrun. cbn [fst]. f_equal.
  assert (Hk : k = 2%nat).
  { destruct (Nat.lt_trichotomy k 2) as [Hlt|[Heq|Hgt]]; [|assumption|].
    - exfalso. destruct Hend as [(Hne & _ & Hpk & _)|(_ & Hout & _)].
      + assert (k = 0 \/ k = 1)%nat as [-> | ->] by lia; congruence.
      + pose proof (elapsed_monotone getValueFn Hmono Hwait k 2 (page s)
                      ltac:(lia)). lia.
    - exfalso. destruct (Hbefore 2%nat Hgt) as [_ Hp]. congruence. }
  subst k.
  destruct Hend as [(_ & _ & Hpk & _)|(_ & Hout & _)]; [congruence|lia].
Qed.

(** The scenario of C3 on the scripted page: tape "A", "A", "B", timeout
    150, polls 50 apart. *)
Lemma waitForFocusChange_first_change_witness :
  fst (waitForFocusChange 3 (createTestIdFocusGetter FavouriteAppsRail)
         (Some "A") 150
         (Scripted.start [Some "A"; Some "A"; Some "B"]))
  = Ok (Some "B").
Proof.
  apply (waitForFocusChange_first_change Scripted.Tape Scripted.world
           (createTestIdFocusGetter FavouriteAppsRail) (Some "A") 150 3%nat
           (Scripted.start [Some "A"; Some "A"; Some "B"])).
  - apply createTestIdFocusGetter_monotone.
  - intros ms w. cbn. lia.
  - vm_compute. lia.
  - reflexivity.
  - reflexivity.
  - reflexivity.
  - reflexivity.
  - vm_compute. reflexivity.
Defined.

(** C9.  With a timeout of zero or less the loop of [waitForFocusChange]
    is not entered: whatever the accessor is or would return,
    [previousValue] is returned and the state is the one the call
    started in, so the accessor was not run. *)
Theorem waitForFocusChange_nonpositive_timeout :
  forall (W : Type) (H : World W) (fuel : nat)
         (getValueFn : W -> Js.Nullable * W)
         (previousValue : Js.Nullable) (timeout : Z) (s : St W),
    timeout <= 0 ->
    waitForFocusChange fuel getValueFn previousValue timeout s
      = (Ok previousValue, s).
Proof.
  intros W H fuel getValueFn previousValue timeout s Hle.
  unfold waitForFocusChange. unfold_effects.
  rewrite waitForFocusChange_loop_unfold.
  replace (Date_now (page s) - Date_now (page s) <? timeout) with false;
    [reflexivity|].
  symmetry. apply Z.ltb_ge. lia.
Qed.

(** C9 on the scripted page: the focus is on "B", the caller passes "A"
    and a timeout of 0, and "A" comes back. *)
Lemma waitForFocusChange_nonpositive_timeout_witness :
  0 <= 0
  /\ waitForFocusChange 0 (createTestIdFocusGetter FavouriteAppsRail)
       (Some "A") 0 (Scripted.start [Some "B"])
     = (Ok (Some "A"), Scripted.start [Some "B"]).
Proof.
  split; [lia|].
  apply (waitForFocusChange_nonpositive_timeout Scripted.Tape Scripted.world).
  lia.
Defined.

(** ** Loops *)

Section Loops.
Context {W V R : Type}.
Variable body : Z -> V -> M W (Completion V R).

Lemma for_steps_unfold (n : nat) (i : Z) (v : V) (s : St W) :
  for_steps (S n) i v body s =
  match body i v s with
  | (Ok (Normal v'), s') => for_steps n (i + 1) v' body s'
  | (Ok (Break v'), s') => (Ok (inl v'), s')
  | (Ok (Return r), s') => (Ok (inr r), s')
  | (Throw e, s') => (Throw e, s')
  | (OutOfFuel, s') => (OutOfFuel, s')
  end.
Proof.
  cbn [for_steps]. unfold bind, ret.
  destruct (body i v s) as [[[v'|v'|r]|e|] s']; reflexivity.
Qed.

(** A loop that reaches a configuration goes on from it. *)
Lemma for_steps_reach (i : Z) (v : V) (s : St W) (j : Z) (u : V) (t : St W) :
  IterReach body i v s j u t ->
  i <= j
  /\ forall n, for_steps (Z.to_nat (j - i) + n) i v body s
               = for_steps n j u body t.
Proof.
  induction 1 as [|j u t u' t' Hreach [Hle IH] Hbody].
  - split; [lia|]. intro n. now rewrite Z.sub_diag.
  - split; [lia|]. intro n.
    replace (Z.to_nat (j + 1 - i) + n)%nat
      with (Z.to_nat (j - i) + S n)%nat by lia.
    rewrite IH, for_steps_unfold, Hbody. reflexivity.
Qed.

(** The iteration a [for] loop with bound [bound] runs in a
    configuration it reaches before the bound. *)
Lemma for_lt_reach (bound : Z) (v : V) (s : St W) (j : Z) (u : V) (t : St W) :
  IterReach body 0 v s j u t ->
  j < bound ->
  for_lt bound v body s =
  for_steps (S (Z.to_nat (bound - j - 1))) j u body t.
Proof.
  intros Hreach Hlt. destruct (for_steps_reach 0 v s j u t Hreach) as [Hle Hgo].
  unfold for_lt. rewrite <- Hgo. f_equal. lia.
Qed.

End Loops.

(** ** The input driver *)

Section InputDriver.
Context {W : Type} `{World W}.

Lemma pressKey_eq (key : string) (s : St W) :
  RemoteControl.pressKey key s = (Ok tt, pressed key s).
Proof. reflexivity. Qed.

Lemma pressKeyMultiple_one (key : string) (s : St W) :
  RemoteControl.pressKeyMultiple key 1 s = (Ok tt, pressed key s).
Proof. reflexivity. Qed.

Lemma pressKeyMultiple_two (key : string) (s : St W) :
  RemoteControl.pressKeyMultiple key 2 s = (Ok tt, pressed key (pressed key s)).
Proof. reflexivity. Qed.

Lemma moveRight_one (s : St W) :
  RemoteControl.moveRight 1 s = (Ok tt, pressed RemoteControl.keys.RIGHT s).
Proof. reflexivity. Qed.

Lemma waitForFocusChange_loop_keeps (getValueFn : W -> Js.Nullable * W)
    (previousValue : Js.Nullable) (timeout startTime : Z) (fuel : nat) :
  forall s r s',
    waitForFocusChange_loop fuel getValueFn previousValue timeout startTime s
      = (r, s') ->
    sent s' = sent s /\ warned s' = warned s.
Proof.
  induction fuel as [|fuel IH]; intros s r s';
    rewrite waitForFocusChange_loop_unfold;
    destruct (Date_now (page s) - startTime <? timeout);
    try (intro E; inversion E; subst; now split).
  destruct (Js.strict_eq (fst (getValueFn (page s))) previousValue).
  - intro E. apply IH in E. exact E.
  - intro E; inversion E; subst; now split.
Qed.

(** The focus observer sends no key and logs nothing. *)
Lemma waitForFocusChange_keeps (getValueFn : W -> Js.Nullable * W)
    (previousValue : Js.Nullable) (timeout : Z) (fuel : nat) (s : St W) r s' :
  waitForFocusChange fuel getValueFn previousValue timeout s = (r, s') ->
  sent s' = sent s /\ warned s' = warned s.
Proof.
  unfold waitForFocusChange. unfold_effects.
  apply waitForFocusChange_loop_keeps.
Qed.

End InputDriver.

(** ** The search of the Favourite Apps rail *)

Section FavouriteAppsSearch.
Context {W : Type} `{World W}.
Variable fuel : nat.
Variable appName : string.

Local Abbreviation getter := (createTestIdFocusGetter FavouriteAppsRail).
Local Abbreviation target := (normalise (Some appName)).
Local Abbreviation step :=
  (HomeScreenPage.navigateToApp_step fuel appName target getter).
Local Abbreviation end_of_rail cur :=
  (navigationFailureMessage "app navigation in Favourite Apps rail" appName cur).
Local Abbreviation max_steps_reached :=
  (navigationFailureMessage "app navigation (max steps reached)" appName None).

(** One iteration, by cases. *)
Lemma navigateToApp_step_unfold (i : Z) (v : unit) (s : St W) :
  step i v s =
  let cur := fst (getter (page s)) in
  let s1 := set_page (snd (getter (page s))) s in
  if Js.truthy cur && (normalise cur =? target)%string then
    (Ok (Return true), s1)
  else
    match waitForFocusChange fuel getter cur TIMEOUTS.FOCUS_CHANGE
            (pressed RemoteControl.keys.RIGHT s1) with
    | (Ok newId, s3) =>
        if Js.strict_eq newId cur
        then (Ok (Return false), logged (end_of_rail cur) s3)
        else (Ok (Normal tt), s3)
    | (Throw e, s3) => (Throw e, s3)
    | (OutOfFuel, s3) => (OutOfFuel, s3)
    end.
Proof.
  unfold HomeScreenPage.navigateToApp_step, bind at 1, observe.
  destruct (getter (page s)) as [cur w1]. cbn [fst snd].
  destruct (Js.truthy cur && (normalise cur =? target)%string);
    [reflexivity|].
  unfold bind at 1. rewrite moveRight_one. unfold bind at 1.
  destruct (waitForFocusChange fuel getter cur TIMEOUTS.FOCUS_CHANGE
              (pressed RemoteControl.keys.RIGHT (set_page w1 s)))
    as [[newId|e|] s3]; try reflexivity.
  destruct (Js.strict_eq newId cur); reflexivity.
Qed.

(** The function, once the rail is visible. *)
Lemma navigateToApp_visible (maxSteps : Z) (s : St W) (w1 : W) :
  locator_waitFor_visible FavouriteAppsRail (page s) = (true, w1) ->
  HomeScreenPage.navigateToApp fuel appName maxSteps s =
  match for_lt maxSteps tt step (set_page w1 s) with
  | (Ok (inr b), s') => (Ok b, s')
  | (Ok (inl _), s') => (Ok false, logged max_steps_reached s')
  | (Throw e, s') => (Throw e, s')
  | (OutOfFuel, s') => (OutOfFuel, s')
  end.
Proof.
  intro Hvis. unfold HomeScreenPage.navigateToApp.
  unfold bind at 1. unfold await_or, bind at 1, observe. rewrite Hvis.
  cbn [ret]. unfold bind at 1.
  destruct (for_lt maxSteps tt step (set_page w1 s)) as [[[u|b]|e|] s'];
    reflexivity.
Qed.

Lemma navigateToApp_not_visible (maxSteps : Z) (s : St W) (w1 : W) :
  locator_waitFor_visible FavouriteAppsRail (page s) = (false, w1) ->
  HomeScreenPage.navigateToApp fuel appName maxSteps s
    = (Throw TimeoutError, set_page w1 s).
Proof.
  intro Hvis. unfold HomeScreenPage.navigateToApp.
  unfold bind at 1. unfold await_or, bind at 1, observe. rewrite Hvis.
  reflexivity.
Qed.

End FavouriteAppsSearch.

(** C1 as stated fails, for the search does not compare before it
    looks at the budget: with a budget of 0 the loop body never runs, so
    a focused target is not found; and the guard [currentId &&] keeps a
    [null] token from matching a target that normalises to the empty
    string. *)
Lemma navigateToApp_short_circuit_counterexample :
  (fst (createTestIdFocusGetter FavouriteAppsRail
          (page (Scripted.start [Some "netflix"]))) = Some "netflix"
   /\ normalise (Some "netflix") = normalise (Some "netflix")
   /\ fst (HomeScreenPage.navigateToApp 10 "netflix" 0
             (Scripted.start [Some "netflix"])) = Ok false)
  /\ (fst (createTestIdFocusGetter FavouriteAppsRail
             (page (Scripted.start [None]))) = None
      /\ normalise None = normalise (Some EmptyString)
      /\ fst (HomeScreenPage.navigateToApp 10 EmptyString 1
                (Scripted.start [None])) = Ok false
      /\ sent (snd (HomeScreenPage.navigateToApp 10 EmptyString 1
                      (Scripted.start [None]))) = ["ArrowRight"]).
Proof. vm_compute. repeat split. Qed.

(** C1, amended.  Once the rail is visible: with a budget of at least 1,
    if the first token read is non-empty and its normalisation equals the
    normalised target, [navigateToApp] returns [true] in the state right
    after that read, so no key was sent; with a budget of 0 or less it
    returns [false] after logging "max steps reached", without reading
    the focus and without sending a key. *)
Theorem navigateToApp_short_circuit :
  forall (W : Type) (H : World W) (fuel : nat) (appName : string)
         (maxSteps : Z) (s : St W) (w1 : W),
    locator_waitFor_visible FavouriteAppsRail (page s) = (true, w1) ->
    (1 <= maxSteps ->
     Js.truthy (fst (createTestIdFocusGetter FavouriteAppsRail w1)) = true ->
     normalise (fst (createTestIdFocusGetter FavouriteAppsRail w1))
       = normalise (Some appName) ->
     HomeScreenPage.navigateToApp fuel appName maxSteps s
       = (Ok true,
          mkSt (snd (createTestIdFocusGetter FavouriteAppsRail w1))
               (sent s) (warned s)))
    /\ (maxSteps <= 0 ->
        HomeScreenPage.navigateToApp fuel appName maxSteps s
          = (Ok false,
             mkSt w1 (sent s)
               (warned s ++
                  [navigationFailureMessage "app navigation (max steps reached)"
                     appName None]))).
Proof.
  intros W H fuel appName maxSteps s w1 Hvis. split.
  - intros Hbudget Htruthy Hnorm.
    rewrite (navigateToApp_visible fuel appName maxSteps s w1 Hvis).
    unfold for_lt.
    destruct (Z.to_nat maxSteps) as [|n] eqn:En; [lia|].
    rewrite for_steps_unfold, navigateToApp_step_unfold.
    cbn [page set_page].
    rewrite Htruthy, Hnorm, String.eqb_refl. reflexivity.
  - intro Hbudget.
    rewrite (navigateToApp_visible fuel appName maxSteps s w1 Hvis).
    unfold for_lt. replace (Z.to_nat maxSteps) with O by lia.
    reflexivity.
Qed.

(** C1 on the scripted page: "Netflix " is focused, "netflix" is sought
    with the default budget of 50. *)
Lemma navigateToApp_short_circuit_witness :
  HomeScreenPage.navigateToApp 10 "netflix" NAVIGATION_LIMITS.MAX_RAIL_STEPS
    (Scripted.start [Some "Netflix "; Some "youtube"])
  = (Ok true, mkSt (Scripted.mkTape 0 [Some "youtube"] 1) [] []).
Proof.
  apply (navigateToApp_short_circuit Scripted.Tape Scripted.world 10 "netflix"
           NAVIGATION_LIMITS.MAX_RAIL_STEPS
           (Scripted.start [Some "Netflix "; Some "youtube"])
           (Scripted.mkTape 0 [Some "Netflix "; Some "youtube"] 1)).
  - reflexivity.
  - vm_compute. discriminate.
  - reflexivity.
  - reflexivity.
Defined.

Section FavouriteAppsLoop.
Context {W : Type} `{World W}.
Variable fuel : nat.
Variable appName : string.

Local Abbreviation getter := (createTestIdFocusGetter FavouriteAppsRail).
Local Abbreviation step :=
  (HomeScreenPage.navigateToApp_step fuel appName (normalise (Some appName)) getter).

(** The loop sends right-moves only, at most one per iteration. *)
Lemma navigateToApp_loop_sent (n : nat) :
  forall (i : Z) (s : St W) r s',
    for_steps n i tt step s = (r, s') ->
    exists k, (k <= n)%nat
              /\ sent s' = sent s ++ repeat RemoteControl.keys.RIGHT k.
Proof.
  induction n as [|n IH]; intros i s r s'.
  - cbn. unfold ret. intro E. inversion E; subst.
    exists O. cbn. now rewrite app_nil_r.
  - rewrite for_steps_unfold, navigateToApp_step_unfold. cbv zeta.
    destruct (Js.truthy (fst (getter (page s))) && _).
    + intro E. inversion E; subst. exists O. cbn. split; [lia|].
      now rewrite app_nil_r.
    + destruct (waitForFocusChange fuel getter (fst (getter (page s)))
                  TIMEOUTS.FOCUS_CHANGE _) as [[newId|e|] s3] eqn:Ew;
        apply waitForFocusChange_keeps in Ew; destruct Ew as [Es _];
        cbn [pressed sent set_page] in Es.
      * destruct (Js.strict_eq newId (fst (getter (page s)))).
        -- intro E. inversion E; subst. exists 1%nat. split; [lia|].
           cbn [logged sent]. exact Es.
        -- intro E. apply IH in E. destruct E as (k & Hk & E).
           exists (S k). split; [lia|]. rewrite E, Es, <- app_assoc.
           reflexivity.
      * intro E. inversion E; subst. exists 1%nat. split; [lia|]. exact Es.
      * intro E. inversion E; subst. exists 1%nat. split; [lia|]. exact Es.
Qed.

(** With a clock that advances and fuel for the focus-change timeout,
    the loop ends by leaving or returning. *)
Lemma navigateToApp_loop_returns `{!ClockLaws W} (n : nat) :
  (polls_bound TIMEOUTS.FOCUS_CHANGE <= fuel)%nat ->
  forall (i : Z) (s : St W),
    exists (c : unit + bool) (s' : St W),
      for_steps n i tt step s = (Ok c, s').
Proof.
  intro Hfuel. induction n as [|n IH]; intros i s.
  - cbn. unfold ret. eauto.
  - rewrite for_steps_unfold, navigateToApp_step_unfold. cbv zeta.
    destruct (Js.truthy (fst (getter (page s))) && _); [eauto|].
    destruct (waitForFocusChange_returns getter (fst (getter (page s)))
                TIMEOUTS.FOCUS_CHANGE fuel
                (pressed RemoteControl.keys.RIGHT
                   (set_page (snd (getter (page s))) s)))
      as (v & w' & Erun).
    + apply createTestIdFocusGetter_monotone.
    + apply waitForTimeout_elapses.
    + exact Hfuel.
    + rewrite Erun.
      destruct (Js.strict_eq v (fst (getter (page s)))); [eauto|].
      apply IH.
Qed.

End FavouriteAppsLoop.

(** C5.  With a clock that advances, a non-negative [maxSteps] and fuel
    for the polls of one focus-change timeout, [navigateToApp] ends: it
    returns a boolean, or throws because the rail never became visible.
    All it sends is right-moves, and at most [maxSteps] of them, for
    every accessor behaviour and every target. *)
Theorem navigateToApp_terminates_within_budget :
  forall (W : Type) (H : World W) (L : ClockLaws W) (fuel : nat)
         (appName : string) (maxSteps : Z) (s : St W),
    0 <= maxSteps ->
    (polls_bound TIMEOUTS.FOCUS_CHANGE <= fuel)%nat ->
    exists (r : Res bool) (s' : St W) (k : nat),
      HomeScreenPage.navigateToApp fuel appName maxSteps s = (r, s')
      /\ ((exists b, r = Ok b) \/ r = Throw TimeoutError)
      /\ sent s' = sent s ++ repeat RemoteControl.keys.RIGHT k
      /\ Z.of_nat k <= maxSteps.
Proof.
  intros W H L fuel appName maxSteps s Hbudget Hfuel.
  destruct (locator_waitFor_visible FavouriteAppsRail (page s))
    as [[|] w1] eqn:Hvis.
  - rewrite (navigateToApp_visible fuel appName maxSteps s w1 Hvis).
    unfold for_lt.
    destruct (navigateToApp_loop_returns fuel appName (Z.to_nat maxSteps)
                Hfuel 0 (set_page w1 s)) as (c & s' & Erun).
    destruct (navigateToApp_loop_sent fuel appName (Z.to_nat maxSteps)
                0 (set_page w1 s) (Ok c) s' Erun) as (k & Hk & Hsent).
    rewrite Erun. cbn [set_page sent] in Hsent.
    destruct c as [u|b].
    + exists (Ok false), (logged
        (navigationFailureMessage "app navigation (max steps reached)"
           appName None) s'), k.
      repeat split; eauto. lia.
    + exists (Ok b), s', k. repeat split; eauto. lia.
  - rewrite (navigateToApp_not_visible fuel appName maxSteps s w1 Hvis).
    exists (Throw TimeoutError), (set_page w1 s), O.
    repeat split; auto. cbn. now rewrite app_nil_r.
Qed.

(** C5 on the scripted page: a rail of three apps without the target,
    budget 50; the search ends at the end of the rail after its moves. *)
Lemma navigateToApp_terminates_within_budget_witness :
  exists (r : Res bool) (s' : St Scripted.Tape) (k : nat),
    HomeScreenPage.navigateToApp 10 "netflix" 50
      (Scripted.start [Some "watch-tv"; Some "youtube"; Some "prime"]) = (r, s')
    /\ ((exists b, r = Ok b) \/ r = Throw TimeoutError)
    /\ sent s' = [] ++ repeat RemoteControl.keys.RIGHT k
    /\ Z.of_nat k <= 50.
Proof.
  apply (navigateToApp_terminates_within_budget Scripted.Tape Scripted.world
           Scripted_clock_laws 10 "netflix" 50
           (Scripted.start [Some "watch-tv"; Some "youtube"; Some "prime"])).
  - lia.
  - vm_compute. lia.
Defined.

(** C4.  Take any iteration that [navigateToApp] reaches within its
    budget, in state [t].  If the token read there is not the target and
    the token awaited after the right-move is that same token, the call
    returns [false] as a value, having logged the end-of-rail warning
    (not the "max steps reached" one); the keys sent are those sent
    before the iteration and its one right-move, nothing after. *)
Theorem navigateToApp_end_of_rail :
  forall (W : Type) (H : World W) (fuel : nat) (appName : string)
         (maxSteps : Z) (s : St W) (w1 : W) (j : Z) (t t3 : St W),
    locator_waitFor_visible FavouriteAppsRail (page s) = (true, w1) ->
    IterReach
      (HomeScreenPage.navigateToApp_step fuel appName (normalise (Some appName))
         (createTestIdFocusGetter FavouriteAppsRail))
      0 tt (set_page w1 s) j tt t ->
    j < maxSteps ->
    Js.truthy (fst (createTestIdFocusGetter FavouriteAppsRail (page t)))
      && (normalise (fst (createTestIdFocusGetter FavouriteAppsRail (page t)))
          =? normalise (Some appName))%string = false ->
    waitForFocusChange fuel (createTestIdFocusGetter FavouriteAppsRail)
      (fst (createTestIdFocusGetter FavouriteAppsRail (page t)))
      TIMEOUTS.FOCUS_CHANGE
      (pressed RemoteControl.keys.RIGHT
         (set_page (snd (createTestIdFocusGetter FavouriteAppsRail (page t))) t))
    = (Ok (fst (createTestIdFocusGetter FavouriteAppsRail (page t))), t3) ->
    HomeScreenPage.navigateToApp fuel appName maxSteps s
    = (Ok false,
       mkSt (page t3)
         (sent t ++ [RemoteControl.keys.RIGHT])
         (warned t ++
            [navigationFailureMessage "app navigation in Favourite Apps rail"
               appName
               (fst (createTestIdFocusGetter FavouriteAppsRail (page t)))])).
Proof.
  intros W H fuel appName maxSteps s w1 j t t3 Hvis Hreach Hlt Hmiss Hwait.
  rewrite (navigateToApp_visible fuel appName maxSteps s w1 Hvis).
  rewrite (for_lt_reach _ maxSteps tt (set_page w1 s) j tt t Hreach Hlt).
  rewrite for_steps_unfold, navigateToApp_step_unfold. cbv zeta.
  rewrite Hmiss, Hwait, strict_eq_refl.
  apply waitForFocusChange_keeps in Hwait. destruct Hwait as [Es Ew].
  cbn [pressed set_page sent warned] in Es, Ew.
  unfold logged. now rewrite Es, Ew.
Qed.

(** C4 on the scripted page: the rail holds "a" and "b", the target is
    absent; the second iteration is reached after one move, and its move
    changes nothing. *)
Lemma navigateToApp_end_of_rail_witness :
  HomeScreenPage.navigateToApp 10 "zzz" 5 (Scripted.start [Some "a"; Some "b"])
  = (Ok false,
     mkSt (Scripted.mkTape 700 [Some "b"] 3)
       ["ArrowRight"; "ArrowRight"]
       [navigationFailureMessage "app navigation in Favourite Apps rail"
          "zzz" (Some "b")]).
Proof.
  apply (navigateToApp_end_of_rail Scripted.Tape Scripted.world 10 "zzz" 5
           (Scripted.start [Some "a"; Some "b"])
           (Scripted.mkTape 0 [Some "a"; Some "b"] 1)
           1
           (mkSt (Scripted.mkTape 100 [Some "b"] 2) ["ArrowRight"] [])
           (mkSt (Scripted.mkTape 700 [Some "b"] 3)
              ["ArrowRight"; "ArrowRight"] [])).
  - reflexivity.
  - apply (IterReach_next _ 0 tt _ 0 tt _ tt _ (IterReach_here _ _ _ _)).
    reflexivity.
  - lia.
  - reflexivity.
  - reflexivity.
Defined.

(** C6 as stated fails, for a [null] first token and a target that
    normalises to the empty string do not give Found: the guard
    [currentId &&] rejects the token before any comparison, and a move is
    sent. *)
Lemma navigateToApp_null_token_counterexample :
  fst (createTestIdFocusGetter FavouriteAppsRail (page (Scripted.start [None])))
    = None
  /\ normalise (Some "  ") = EmptyString
  /\ normalise None = normalise (Some "  ")
  /\ HomeScreenPage.navigateToApp 10 "  " 50 (Scripted.start [None])
     = (Ok false,
        mkSt (Scripted.mkTape 600 [None] 2) ["ArrowRight"]
          [navigationFailureMessage "app navigation in Favourite Apps rail"
             "  " None]).
Proof. vm_compute. repeat split. Qed.

(** C6, amended.  [navigateToApp] special-cases [null] and the empty
    string: the guard [currentId &&] keeps them from matching any target,
    also one that normalises to the empty string.  When the rail is
    visible, the budget is at least 1 and the first token read is [null]
    or empty, the call does not stop at that read: it sends at least one
    right-move, whatever the target; and if the token awaited after that
    move is unchanged, it returns [false]. *)
Theorem navigateToApp_empty_token_never_matches :
  forall (W : Type) (H : World W) (fuel : nat) (appName : string)
         (maxSteps : Z) (s : St W) (w1 : W),
    locator_waitFor_visible FavouriteAppsRail (page s) = (true, w1) ->
    1 <= maxSteps ->
    Js.truthy (fst (createTestIdFocusGetter FavouriteAppsRail w1)) = false ->
    (exists k,
        sent (snd (HomeScreenPage.navigateToApp fuel appName maxSteps s))
        = sent s ++ repeat RemoteControl.keys.RIGHT (S k))
    /\ (forall t3,
          waitForFocusChange fuel (createTestIdFocusGetter FavouriteAppsRail)
            (fst (createTestIdFocusGetter FavouriteAppsRail w1))
            TIMEOUTS.FOCUS_CHANGE
            (pressed RemoteControl.keys.RIGHT
               (set_page (snd (createTestIdFocusGetter FavouriteAppsRail w1)) s))
          = (Ok (fst (createTestIdFocusGetter FavouriteAppsRail w1)), t3) ->
          fst (HomeScreenPage.navigateToApp fuel appName maxSteps s) = Ok false).
Proof.
  intros W H fuel appName maxSteps s w1 Hvis Hbudget Hfalsy.
  assert (Hmiss :
    Js.truthy (fst (createTestIdFocusGetter FavouriteAppsRail w1))
    && (normalise (fst (createTestIdFocusGetter FavouriteAppsRail w1))
        =? normalise (Some appName))%string = false)
    by now rewrite Hfalsy.
  split.
  - rewrite (navigateToApp_visible fuel appName maxSteps s w1 Hvis).
    unfold for_lt.
    destruct (Z.to_nat maxSteps) as [|n] eqn:En; [lia|].
    rewrite for_steps_unfold, navigateToApp_step_unfold. cbv zeta.
    cbn [page set_page]. rewrite Hmiss.
    destruct (waitForFocusChange fuel _ _ TIMEOUTS.FOCUS_CHANGE _)
      as [[newId|e|] s3] eqn:Ew;
      apply waitForFocusChange_keeps in Ew; destruct Ew as [Es _];
      cbn [pressed sent set_page] in Es.
    + destruct (Js.strict_eq newId _).
      * exists O. cbn [snd logged sent]. exact Es.
      * destruct (for_steps n (0 + 1) tt _ s3) as [r s'] eqn:Eloop.
        destruct (navigateToApp_loop_sent fuel appName n _ s3 r s' Eloop)
          as (k & _ & Hsent).
        exists k.
        replace (sent (snd match r with
                           | Ok (inl _) => _
                           | Ok (inr b) => (Ok b, s')
                           | Throw e => (Throw e, s')
                           | OutOfFuel => (OutOfFuel, s')
                           end)) with (sent s')
          by (destruct r as [[u|b]|e|]; reflexivity).
        rewrite Hsent, Es, <- app_assoc. reflexivity.
    + exists O. exact Es.
    + exists O. exact Es.
  - intros t3 Hwait.
    rewrite (navigateToApp_visible fuel appName maxSteps s w1 Hvis).
    unfold for_lt.
    destruct (Z.to_nat maxSteps) as [|n] eqn:En; [lia|].
    rewrite for_steps_unfold, navigateToApp_step_unfold. cbv zeta.
    unfold pressed, set_page in *. cbn [page sent warned] in *.
    rewrite Hmiss, Hwait, strict_eq_refl.
    reflexivity.
Qed.

(** C6 on the scripted page: nothing is focused, the target is the empty
    string, the budget is 1. *)
Lemma navigateToApp_empty_token_never_matches_witness :
  (exists k,
      sent (snd (HomeScreenPage.navigateToApp 10 EmptyString 1
                   (Scripted.start [None])))
      = [] ++ repeat RemoteControl.keys.RIGHT (S k))
  /\ fst (HomeScreenPage.navigateToApp 10 EmptyString 1 (Scripted.start [None]))
     = Ok false.
Proof.
  destruct (navigateToApp_empty_token_never_matches Scripted.Tape Scripted.world
              10 EmptyString 1 (Scripted.start [None])
              (Scripted.mkTape 0 [None] 1))
    as [Hmove Hstall].
  - reflexivity.
  - lia.
  - reflexivity.
  - split; [exact Hmove|].
    apply (Hstall (mkSt (Scripted.mkTape 600 [None] 2) ["ArrowRight"] [])).
    reflexivity.
Defined.

(** ** Normalisation *)

Lemma toLowerChar_idempotent (c : ascii) :
  Js.toLowerChar (Js.toLowerChar c) = Js.toLowerChar c.
Proof. destruct c as [[] [] [] [] [] [] [] []]; reflexivity. Qed.

Lemma isWhiteSpace_toLowerChar (c : ascii) :
  Js.isWhiteSpace (Js.toLowerChar c) = Js.isWhiteSpace c.
Proof. destruct c as [[] [] [] [] [] [] [] []]; reflexivity. Qed.

Lemma same_letter_lower (a b : ascii) :
  same_letter a b -> Js.toLowerChar a = Js.toLowerChar b.
Proof.
  intros [-> | [<- | ->]]; now rewrite ?toLowerChar_idempotent.
Qed.

Lemma same_letters_lower (x y : list ascii) :
  Forall2 same_letter x y -> map Js.toLowerChar x = map Js.toLowerChar y.
Proof.
  induction 1 as [|a b x y Hab _ IH]; cbn; [reflexivity|].
  now rewrite (same_letter_lower a b Hab), IH.
Qed.

Lemma all_white_lower (l : list ascii) :
  all_white l -> all_white (map Js.toLowerChar l).
Proof.
  unfold all_white. induction 1 as [|c l Hc _ IH]; cbn; constructor.
  - now rewrite isWhiteSpace_toLowerChar.
  - exact IH.
Qed.

Lemma trimStartChars_white (l x : list ascii) :
  all_white l -> Js.trimStartChars (l ++ x) = Js.trimStartChars x.
Proof.
  induction 1 as [|c l Hc _ IH]; cbn; [reflexivity|]. now rewrite Hc.
Qed.

Lemma trimStartChars_white_end (x r : list ascii) :
  all_white r ->
  Js.trimStartChars (x ++ r) =
  match Js.trimStartChars x with
  | [] => []
  | y => y ++ r
  end.
Proof.
  intro Hr. induction x as [|c x IH]; cbn.
  - rewrite <- (app_nil_r r). now rewrite trimStartChars_white.
  - destruct (Js.isWhiteSpace c); [exact IH|reflexivity].
Qed.

Lemma trimChars_padded (core s : list ascii) :
  padded core s -> Js.trimChars s = Js.trimChars core.
Proof.
  intros (l & r & Hl & Hr & ->). unfold Js.trimChars.
  rewrite (trimStartChars_white l _ Hl), (trimStartChars_white_end core r Hr).
  destruct (Js.trimStartChars core) as [|c y]; [reflexivity|].
  rewrite rev_app_distr, trimStartChars_white; [reflexivity|].
  apply Forall_rev. exact Hr.
Qed.

Lemma normalise_Some (x : string) :
  normalise (Some x) = Js.trim (Js.toLowerCase x).
Proof.
  unfold normalise, Js.truthy. destruct x; reflexivity.
Qed.

Lemma normalise_up_to_case_and_padding (a b : string) :
  same_up_to_case_and_padding a b ->
  normalise (Some a) = normalise (Some b).
Proof.
  intros (ca & cb & Ha & Hb & Hsame).
  rewrite !normalise_Some. unfold Js.trim, Js.toLowerCase.
  rewrite !list_ascii_of_string_of_list_ascii. f_equal.
  assert (Hpad : forall core s, padded core s ->
            padded (map Js.toLowerChar core) (map Js.toLowerChar s)).
  { intros core s (l & r & Hl & Hr & ->).
    exists (map Js.toLowerChar l), (map Js.toLowerChar r).
    rewrite !map_app. auto using all_white_lower. }
  rewrite (trimChars_padded _ _ (Hpad _ _ Ha)),
          (trimChars_padded _ _ (Hpad _ _ Hb)).
  now rewrite (same_letters_lower ca cb Hsame).
Qed.

(** ** The search of the Video rail *)

Section VideoRailSearch.
Context {W : Type} `{World W}.
Variable fuel : nat.
Variable appName : string.
Variable getFocusedTestId : W -> Js.Nullable * W.

Local Abbreviation vstep :=
  (HomeScreenPage.videoRailSearch_step fuel appName getFocusedTestId).

(** One iteration, by cases. *)
Lemma videoRailSearch_step_unfold (i : Z) (previousTestId : Js.Nullable)
    (s : St W) :
  vstep i previousTestId s =
  let cur := fst (getFocusedTestId (page s)) in
  let s1 := set_page (snd (getFocusedTestId (page s))) s in
  if Js.strict_eq cur (Some appName) then (Ok (Break previousTestId), s1)
  else if Js.strict_eq cur None
          || ((i >? 0) && Js.strict_eq cur previousTestId) then
    (Ok (Return false),
     logged (navigationFailureMessage "Video rail app search" appName
               previousTestId) s1)
  else
    match waitForFocusChange fuel getFocusedTestId cur TIMEOUTS.POLLING
            (pressed RemoteControl.keys.RIGHT s1) with
    | (Ok newId, s3) =>
        if Js.strict_eq newId cur
        then (Ok (Return false),
              logged (navigationFailureMessage
                        "Video rail navigation (end of rail)" appName cur) s3)
        else (Ok (Normal cur), s3)
    | (Throw e, s3) => (Throw e, s3)
    | (OutOfFuel, s3) => (OutOfFuel, s3)
    end.
Proof.
  unfold HomeScreenPage.videoRailSearch_step, bind at 1, observe.
  destruct (getFocusedTestId (page s)) as [cur w1]. cbn [fst snd].
  destruct (Js.strict_eq cur (Some appName)); [reflexivity|].
  destruct (Js.strict_eq cur None
            || ((i >? 0) && Js.strict_eq cur previousTestId));
    [reflexivity|].
  unfold bind at 1. rewrite moveRight_one. unfold bind at 1.
  destruct (waitForFocusChange fuel getFocusedTestId cur TIMEOUTS.POLLING
              (pressed RemoteControl.keys.RIGHT (set_page w1 s)))
    as [[newId|e|] s3]; try reflexivity.
  destruct (Js.strict_eq newId cur); reflexivity.
Qed.

(** An iteration that falls through hands on the token it read, which
    is not the target. *)
Lemma videoRailSearch_step_normal (i : Z) (previousTestId u : Js.Nullable)
    (s s' : St W) :
  vstep i previousTestId s = (Ok (Normal u), s') ->
  u = fst (getFocusedTestId (page s)) /\ u <> Some appName.
Proof.
  rewrite videoRailSearch_step_unfold. cbv zeta.
  destruct (Js.strict_eq (fst (getFocusedTestId (page s))) (Some appName))
    eqn:Etarget; [discriminate|].
  destruct (Js.strict_eq (fst (getFocusedTestId (page s))) None
            || ((i >? 0)
                && Js.strict_eq (fst (getFocusedTestId (page s))) previousTestId));
    [discriminate|].
  destruct (waitForFocusChange fuel getFocusedTestId _ TIMEOUTS.POLLING _)
    as [[newId|e|] s3]; try discriminate.
  destruct (Js.strict_eq newId _); [discriminate|].
  intro E. inversion E; subst. split; [reflexivity|].
  now apply strict_eq_false_iff.
Qed.

(** After the first iteration [previousTestId] is never the target. *)
Lemma videoRailSearch_previous_not_target (s0 : St W) (i : Z)
    (previousTestId : Js.Nullable) (t : St W) :
  IterReach vstep 0 None s0 i previousTestId t ->
  0 < i -> previousTestId <> Some appName.
Proof.
  induction 1 as [|j u t u' t' Hreach IH Hbody].
  - lia.
  - intros _. apply videoRailSearch_step_normal in Hbody. tauto.
Qed.

(** After the first iteration [previousTestId] is the token that the
    iteration before read at its start. *)
Lemma videoRailSearch_previous_is_last_read (s0 : St W) (i : Z)
    (previousTestId : Js.Nullable) (t : St W) :
  IterReach vstep 0 None s0 i previousTestId t ->
  0 < i ->
  exists j u tj,
    IterReach vstep 0 None s0 j u tj
    /\ i = j + 1
    /\ vstep j u tj = (Ok (Normal previousTestId), t)
    /\ previousTestId = fst (getFocusedTestId (page tj)).
Proof.
  destruct 1 as [|j u tj u' t' Hreach Hbody].
  - lia.
  - intros _. exists j, u, tj. repeat split; try assumption.
    apply videoRailSearch_step_normal in Hbody. tauto.
Qed.

End VideoRailSearch.

(** C2 as stated fails for the search of the Video rail, which
    compares with [===] and never normalises: "X" is focused,
    "X " is sought, and the search gives up at the end of the rail. *)
Lemma videoRailSearch_strict_counterexample :
  normalise (Some "X") = normalise (Some "X ")
  /\ fst (createTestIdFocusGetter VideoRail
            (page (snd (RemoteControl.moveDown 1 (Scripted.start [Some "X"])))))
     = Some "X"
  /\ HomeScreenPage.addAppToFavoritesFromAppsPage 20 "X "
       (Scripted.start [Some "X"])
     = (Ok false,
        mkSt (Scripted.mkTape 1200 [Some "X"] 2) ["ArrowDown"; "ArrowRight"]
          [navigationFailureMessage "Video rail navigation (end of rail)"
             "X " (Some "X")]).
Proof. vm_compute. repeat split. Qed.

(** C2, amended.  The search of the Favourite Apps rail normalises both
    sides: when the rail is visible, the budget is at least 1 and the
    first token read is a non-empty string that differs from the target
    only by letter case and leading or trailing white space,
    [navigateToApp] returns [true] right after that read, without a key.
    The search of the Video rail does not normalise: an iteration leaves
    its loop as found exactly when the token read is the target itself. *)
Theorem navigateToApp_normalised_comparison :
  forall (W : Type) (H : World W) (fuel : nat) (appName : string),
    (forall (maxSteps : Z) (s : St W) (w1 : W) (token : string),
        locator_waitFor_visible FavouriteAppsRail (page s) = (true, w1) ->
        1 <= maxSteps ->
        fst (createTestIdFocusGetter FavouriteAppsRail w1) = Some token ->
        token <> EmptyString ->
        same_up_to_case_and_padding token appName ->
        HomeScreenPage.navigateToApp fuel appName maxSteps s
        = (Ok true,
           mkSt (snd (createTestIdFocusGetter FavouriteAppsRail w1))
             (sent s) (warned s)))
    /\ (forall (getFocusedTestId : W -> Js.Nullable * W) (i : Z)
               (previousTestId : Js.Nullable) (s : St W),
          fst (HomeScreenPage.videoRailSearch_step fuel appName getFocusedTestId
                 i previousTestId s) = Ok (Break previousTestId)
          <-> fst (getFocusedTestId (page s)) = Some appName).
Proof.
  intros W H fuel appName. split.
  - intros maxSteps s w1 token Hvis Hbudget Htoken Hne Hsame.
    rewrite (navigateToApp_visible fuel appName maxSteps s w1 Hvis).
    unfold for_lt.
    destruct (Z.to_nat maxSteps) as [|n] eqn:En; [lia|].
    rewrite for_steps_unfold, navigateToApp_step_unfold.
    cbn [page set_page]. rewrite Htoken.
    rewrite (normalise_up_to_case_and_padding token appName Hsame).
    rewrite String.eqb_refl.
    replace (Js.truthy (Some token)) with true; [reflexivity|].
    cbn. destruct (String.eqb_spec token EmptyString); [contradiction|reflexivity].
  - intros getFocusedTestId i previousTestId s.
    rewrite videoRailSearch_step_unfold. cbv zeta.
    destruct (Js.strict_eq (fst (getFocusedTestId (page s))) (Some appName))
      eqn:Etarget.
    + apply strict_eq_true_iff in Etarget. cbn. tauto.
    + apply strict_eq_false_iff in Etarget.
      split; [|contradiction].
      destruct (Js.strict_eq (fst (getFocusedTestId (page s))) None
                || ((i >? 0)
                    && Js.strict_eq (fst (getFocusedTestId (page s)))
                         previousTestId)); [discriminate|].
      destruct (waitForFocusChange fuel getFocusedTestId _ TIMEOUTS.POLLING _)
        as [[newId|e|] s3]; try discriminate.
      destruct (Js.strict_eq newId _); discriminate.
Qed.

(** C2 on the scripted page: the accessor returns "X", the target is "X "
    with a trailing space, the budget is 5. *)
Lemma navigateToApp_normalised_comparison_witness :
  HomeScreenPage.navigateToApp 10 "X " 5 (Scripted.start [Some "X"])
  = (Ok true, mkSt (Scripted.mkTape 0 [Some "X"] 1) [] []).
Proof.
  apply (proj1 (navigateToApp_normalised_comparison Scripted.Tape
                  Scripted.world 10 "X ")
           5 (Scripted.start [Some "X"]) (Scripted.mkTape 0 [Some "X"] 1) "X").
  - reflexivity.
  - lia.
  - reflexivity.
  - discriminate.
  - exists ["X"%char], ["X"%char]. repeat split.
    + exists [], []. repeat split; constructor.
    + exists [], [" "%char]. repeat split; repeat constructor.
    + repeat constructor.
Defined.

(** C10.  Let the first loop of [addAppToFavoritesFromAppsPage] end and
    an item of the Video rail be focused, so that the search loop starts
    in [s0]; take any iteration [i] the search loop reaches within its
    budget, in state [t] with [previousTestId].  After the first
    iteration [previousTestId] is the token read at the start of the
    iteration before.  If the token read at the start of iteration [i] is
    [null], or if [i > 0] and it equals [previousTestId], the call
    returns [false] after logging the stall, and sends no key after
    those already sent when the iteration began. *)
Theorem addAppToFavoritesFromAppsPage_stall_aborts :
  forall (W : Type) (H : World W) (fuel : nat) (appName : string)
         (s_init sA s0 : St W) (c : unit + bool)
         (i : Z) (previousTestId : Js.Nullable) (t : St W),
    for_lt NAVIGATION_LIMITS.MAX_DOWN_STEPS tt
      HomeScreenPage.enterVideoRail_step s_init = (Ok c, sA) ->
    HomeScreenPage.isVideoRailItemFocused sA = (Ok true, s0) ->
    IterReach
      (HomeScreenPage.videoRailSearch_step fuel appName
         (createTestIdFocusGetter VideoRail))
      0 None s0 i previousTestId t ->
    i < NAVIGATION_LIMITS.MAX_APP_SEARCH_STEPS ->
    (0 < i ->
     exists j u tj,
       IterReach
         (HomeScreenPage.videoRailSearch_step fuel appName
            (createTestIdFocusGetter VideoRail))
         0 None s0 j u tj
       /\ i = j + 1
       /\ HomeScreenPage.videoRailSearch_step fuel appName
            (createTestIdFocusGetter VideoRail) j u tj
          = (Ok (Normal previousTestId), t)
       /\ previousTestId = fst (createTestIdFocusGetter VideoRail (page tj)))
    /\ (fst (createTestIdFocusGetter VideoRail (page t)) = None
        \/ (0 < i
            /\ fst (createTestIdFocusGetter VideoRail (page t)) = previousTestId) ->
        HomeScreenPage.addAppToFavoritesFromAppsPage fuel appName s_init
        = (Ok false,
           mkSt (snd (createTestIdFocusGetter VideoRail (page t)))
             (sent t)
             (warned t ++
                [navigationFailureMessage "Video rail app search" appName
                   previousTestId]))).
Proof.
  intros W H fuel appName s_init sA s0 c i previousTestId t
         Henter Hfocused Hreach Hlt.
  split.
  { exact (videoRailSearch_previous_is_last_read fuel appName _ s0 i
             previousTestId t Hreach). }
  intro Hstall.
  unfold HomeScreenPage.addAppToFavoritesFromAppsPage.
  unfold bind at 1. rewrite Henter.
  unfold bind at 1. rewrite Hfocused. cbn [negb].
  unfold HomeScreenPage.videoRailSearch. unfold bind at 1.
  rewrite (for_lt_reach (V := Js.Nullable) _
             NAVIGATION_LIMITS.MAX_APP_SEARCH_STEPS None s0
             i previousTestId t Hreach Hlt).
  rewrite for_steps_unfold, videoRailSearch_step_unfold. cbv zeta.
  assert (Hnot : Js.strict_eq (fst (createTestIdFocusGetter VideoRail (page t)))
                   (Some appName) = false).
  { apply strict_eq_false_iff. destruct Hstall as [Hnull|[Hpos Hsame]].
    - rewrite Hnull. discriminate.
    - rewrite Hsame.
      exact (videoRailSearch_previous_not_target fuel appName _ s0 i
               previousTestId t Hreach Hpos). }
  rewrite Hnot.
  assert (Hcond : Js.strict_eq (fst (createTestIdFocusGetter VideoRail (page t)))
                    None
                  || ((i >? 0)
                      && Js.strict_eq
                           (fst (createTestIdFocusGetter VideoRail (page t)))
                           previousTestId) = true).
  { destruct Hstall as [Hnull|[Hpos Hsame]].
    - rewrite Hnull. reflexivity.
    - rewrite Hsame, strict_eq_refl.
      replace (i >? 0) with true by (symmetry; apply Z.gtb_lt; lia).
      apply orb_true_r. }
  rewrite Hcond. reflexivity.
Qed.

(** C10 on the scripted page: the Video rail shows "a", then "b" after
    the move, then "a" again at the start of the second iteration. *)
Lemma addAppToFavoritesFromAppsPage_stall_aborts_witness :
  HomeScreenPage.addAppToFavoritesFromAppsPage 20 "c"
    (Scripted.start [Some "a"; Some "b"; Some "a"; Some "c"])
  = (Ok false,
     mkSt (Scripted.mkTape 200 [Some "c"] 2) ["ArrowDown"; "ArrowRight"]
       [navigationFailureMessage "Video rail app search" "c" (Some "a")]).
Proof.
  apply (addAppToFavoritesFromAppsPage_stall_aborts Scripted.Tape
           Scripted.world 20 "c"
           (Scripted.start [Some "a"; Some "b"; Some "a"; Some "c"])
           (mkSt (Scripted.mkTape 100 [Some "a"; Some "b"; Some "a"; Some "c"] 1)
              ["ArrowDown"] [])
           (mkSt (Scripted.mkTape 100 [Some "a"; Some "b"; Some "a"; Some "c"] 1)
              ["ArrowDown"] [])
           (inl tt) 1 (Some "a")
           (mkSt (Scripted.mkTape 200 [Some "a"; Some "c"] 2)
              ["ArrowDown"; "ArrowRight"] [])).
  - reflexivity.
  - reflexivity.
  - apply (IterReach_next _ 0 None _ 0 None _ (Some "a") _
             (IterReach_here _ _ _ _)).
    reflexivity.
  - reflexivity.
  - right. split; [lia|reflexivity].
Defined.

(** ** The menu bar *)

Section MenuBar.
Context {W : Type} `{World W}.

(** A name that resolves to [undefined] is rejected before anything is
    sent. *)
Lemma navigateToMenuItemByName_undefined (menuName : string) (maxSteps : Z)
    (s : St W) :
  NavigationBar.get NavigationBar.menuItems menuName = NavigationBar.Undefined ->
  NavigationBar.navigateToMenuItemByName menuName maxSteps s
  = (Throw (Error (NavigationBar.unknownMenuItemMessage menuName)), s).
Proof.
  intro Hget. unfold NavigationBar.navigateToMenuItemByName.
  rewrite Hget. reflexivity.
Qed.

(** One iteration of a navigation loop towards an own entry. *)
Lemma menu_step_unfold (e : NavigationBar.MenuEntry) (key : string)
    (i : Z) (v : unit) (s : St W) :
  NavigationBar.menu_step (NavigationBar.Own e)
    (RemoteControl.pressKeyMultiple key 1) i v s =
  if Js.strict_eq
       (fst (locator_getAttribute (NavigationBar.item e) "data-focused" (page s)))
       (Some "focused")
  then (Ok (Break tt),
        set_page (snd (locator_getAttribute (NavigationBar.item e)
                         "data-focused" (page s))) s)
  else (Ok (Normal tt),
        pressed key
          (set_page (snd (locator_getAttribute (NavigationBar.item e)
                            "data-focused" (page s))) s)).
Proof.
  unfold NavigationBar.menu_step, NavigationBar.item_getAttribute.
  cbn [NavigationBar.member_item]. unfold bind at 1, observe.
  destruct (locator_getAttribute (NavigationBar.item e) "data-focused" (page s))
    as [a w]. cbn [fst snd].
  destruct (Js.strict_eq a (Some "focused")); [reflexivity|].
  unfold bind. rewrite pressKeyMultiple_one. reflexivity.
Qed.

(** A navigation loop of [n] iterations makes [k <= n] moves, all with
    its key: the checks before them found the item not focused, and if
    [k < n] the next check found it focused. *)
Lemma menu_loop_moves (e : NavigationBar.MenuEntry) (key : string) (n : nat) :
  forall (i : Z) (s : St W),
    exists (k : nat) (w' : W),
      (k <= n)%nat
      /\ (forall j, (j < k)%nat ->
            menu_focused (NavigationBar.item e) key j (page s) = false)
      /\ ((k < n)%nat ->
          menu_focused (NavigationBar.item e) key k (page s) = true)
      /\ for_steps (R := unit) n i tt
           (NavigationBar.menu_step (NavigationBar.Own e)
              (RemoteControl.pressKeyMultiple key 1)) s
         = (Ok (inl tt), mkSt w' (sent s ++ repeat key k) (warned s)).
Proof.
  induction n as [|n IH]; intros i s.
  - exists O, (page s). cbn. unfold ret. rewrite app_nil_r.
    repeat split; try lia. now destruct s.
  - rewrite for_steps_unfold, menu_step_unfold.
    destruct (Js.strict_eq
                (fst (locator_getAttribute (NavigationBar.item e)
                        "data-focused" (page s))) (Some "focused")) eqn:Efoc.
    + exists O, (snd (locator_getAttribute (NavigationBar.item e)
                        "data-focused" (page s))).
      cbn [repeat]. rewrite app_nil_r.
      repeat split; try lia. intros _. exact Efoc.
    + destruct (IH (i + 1)
                  (pressed key
                     (set_page (snd (locator_getAttribute (NavigationBar.item e)
                                       "data-focused" (page s))) s)))
        as (k & w' & Hk & Hbefore & Hstop & Erun).
      exists (S k), w'. rewrite Erun. cbn [pressed set_page page sent warned].
      repeat split.
      * lia.
      * intros [|j] Hj; [exact Efoc|]. apply (Hbefore j). lia.
      * intro Hlt. apply Hstop. lia.
      * now rewrite <- app_assoc.
Qed.

End MenuBar.

(** [navigateToMenuItemByName] for a name that is an own key of
    [menuItems], by cases. *)
Lemma navigateToMenuItemByName_own {W : Type} `{World W}
    (menuName : string) (e : NavigationBar.MenuEntry) (maxSteps : Z) (s : St W) :
  NavigationBar.get NavigationBar.menuItems menuName = NavigationBar.Own e ->
  NavigationBar.navigateToMenuItemByName menuName maxSteps s =
  match expect_toHaveAttribute NavigationBar.homeItem "data-focused" "focused"
          (page (pressed RemoteControl.keys.UP (pressed RemoteControl.keys.UP s)))
  with
  | (true, w) =>
      match for_steps (R := unit)
              (Z.to_nat (Z.min (Z.abs (NavigationBar.index e - 1)) maxSteps))
              0 tt
              (NavigationBar.menu_step (NavigationBar.Own e)
                 (RemoteControl.pressKeyMultiple
                    (if NavigationBar.index e >? 1
                     then RemoteControl.keys.RIGHT
                     else RemoteControl.keys.LEFT) 1))
              (set_page w
                 (pressed RemoteControl.keys.UP (pressed RemoteControl.keys.UP s)))
      with
      | (Ok _, s3) =>
          match expect_toHaveAttribute (NavigationBar.item e)
                  "data-focused" "focused" (page s3) with
          | (true, w') => (Ok (Some (NavigationBar.item e)), set_page w' s3)
          | (false, w') => (Throw ExpectError, set_page w' s3)
          end
      | (Throw err, s3) => (Throw err, s3)
      | (OutOfFuel, s3) => (OutOfFuel, s3)
      end
  | (false, w) =>
      (Throw ExpectError,
       set_page w
         (pressed RemoteControl.keys.UP (pressed RemoteControl.keys.UP s)))
  end.
Proof.
  intro Hget. unfold NavigationBar.navigateToMenuItemByName.
  rewrite Hget. cbn [NavigationBar.truthy negb NavigationBar.member_index
                     NavigationBar.member_item].
  unfold bind at 1. unfold RemoteControl.moveUp. rewrite pressKeyMultiple_two.
  unfold bind at 1. unfold await_or at 1. unfold bind at 1, observe at 1.
  destruct (expect_toHaveAttribute NavigationBar.homeItem "data-focused"
              "focused" _) as [[|] w]; [|reflexivity].
  cbn [ret]. unfold bind at 1.
  cbn [NavigationBar.js_gt NavigationBar.js_sub NavigationBar.Math_abs
       NavigationBar.Math_min option_map NavigationBar.for_lt_num].
  unfold for_lt, RemoteControl.moveRight, RemoteControl.moveLeft.
  destruct (NavigationBar.index e >? 1); cbn [String.eqb Ascii.eqb Bool.eqb];
    match goal with
    | |- context [for_steps ?n ?i ?v ?b ?st] =>
        destruct (for_steps n i v b st) as [[a|err|] s3]
    end; try reflexivity;
    unfold bind at 1, NavigationBar.expect_item_toHaveAttribute;
    cbn [NavigationBar.member_item];
    unfold await_or, bind at 1, observe;
    destruct (expect_toHaveAttribute (NavigationBar.item e) _ _ (page s3))
      as [[|] w']; reflexivity.
Qed.

(** C8.  For a name that is a key of [menuItems], with entry [e] and a
    non-negative [maxSteps]: after the two up-moves, everything
    [navigateToMenuItemByName] sends is [k] moves with one key, the right
    key when [index e > 1] (Home has index 1) and the left key otherwise,
    with [k <= min(|index e - 1|, maxSteps)].  When Home is confirmed
    focused, each move was preceded by a check that found the target not
    focused, and if [k] is below the bound the loop stopped because the
    next check found it focused; when Home is not confirmed, no
    horizontal move is made.  For "Apps" the key is the right key, the
    steps are 5, and at most 5 moves are made. *)
Theorem navigateToMenuItemByName_moves :
  forall (W : Type) (H : World W) (menuName : string)
         (e : NavigationBar.MenuEntry) (maxSteps : Z) (s : St W),
    NavigationBar.get NavigationBar.menuItems menuName = NavigationBar.Own e ->
    0 <= maxSteps ->
    let key := if NavigationBar.index e >? 1
               then RemoteControl.keys.RIGHT else RemoteControl.keys.LEFT in
    let steps := Z.abs (NavigationBar.index e - 1) in
    let home :=
      expect_toHaveAttribute NavigationBar.homeItem "data-focused" "focused"
        (page (pressed RemoteControl.keys.UP (pressed RemoteControl.keys.UP s))) in
    exists k : nat,
      Z.of_nat k <= Z.min steps maxSteps
      /\ sent (snd (NavigationBar.navigateToMenuItemByName menuName maxSteps s))
         = sent s ++ [RemoteControl.keys.UP; RemoteControl.keys.UP]
             ++ repeat key k
      /\ (fst home = true ->
          (forall j, (j < k)%nat ->
             menu_focused (NavigationBar.item e) key j (snd home) = false)
          /\ (Z.of_nat k < Z.min steps maxSteps ->
              menu_focused (NavigationBar.item e) key k (snd home) = true))
      /\ (fst home = false -> k = O)
      /\ (menuName = "Apps" ->
          key = RemoteControl.keys.RIGHT /\ steps = 5 /\ (k <= 5)%nat).
Proof.
  intros W H menuName e maxSteps s Hget Hbudget key steps home.
  assert (Hsteps : 0 <= Z.min steps maxSteps) by (subst steps; lia).
  assert (Happs : forall k : nat,
            Z.of_nat k <= Z.min steps maxSteps ->
            menuName = "Apps" ->
            key = RemoteControl.keys.RIGHT /\ steps = 5 /\ (k <= 5)%nat).
  { intros k Hk ->. cbv in Hget. inversion Hget. subst e key steps.
    cbn in *. repeat split; lia. }
  rewrite (navigateToMenuItemByName_own menuName e maxSteps s Hget).
  fold key steps home.
  destruct home as [[|] w] eqn:Ehome; cbn [fst snd].
  - destruct (menu_loop_moves e key (Z.to_nat (Z.min steps maxSteps)) 0
                (set_page w (pressed RemoteControl.keys.UP
                               (pressed RemoteControl.keys.UP s))))
      as (k & w' & Hk & Hbefore & Hstop & Erun).
    exists k. rewrite Erun.
    assert (Hbound : Z.of_nat k <= Z.min steps maxSteps) by lia.
    split; [exact Hbound|]. split.
    + cbn [page].
      destruct (expect_toHaveAttribute (NavigationBar.item e) _ _ w')
        as [[|] w'']; cbn [snd set_page sent pressed];
        now rewrite <- !app_assoc.
    + split; [|split; [discriminate|now apply Happs]].
      intros _. split.
      * exact Hbefore.
      * intro Hlt. apply Hstop. lia.
  - exists O. cbn [snd set_page sent pressed repeat].
    split; [exact Hsteps|]. split; [now rewrite <- !app_assoc, app_nil_r|].
    split; [discriminate|]. split; [reflexivity|].
    apply Happs. exact Hsteps.
Qed.

(** C8 on the scripted page: from Home to "Apps" with the default budget
    of 10, five right-moves. *)
Lemma navigateToMenuItemByName_moves_witness :
  exists k : nat,
    Z.of_nat k <= Z.min 5 NAVIGATION_LIMITS.MAX_MENU_STEPS
    /\ sent (snd (NavigationBar.navigateToMenuItemByName "Apps"
                    NAVIGATION_LIMITS.MAX_MENU_STEPS (Scripted.start [])))
       = ["ArrowUp"; "ArrowUp"] ++ repeat "ArrowRight" k
    /\ (k <= 5)%nat.
Proof.
  destruct (navigateToMenuItemByName_moves Scripted.Tape Scripted.world "Apps"
              (NavigationBar.mkEntry NavigationBar.appsItem 6)
              NAVIGATION_LIMITS.MAX_MENU_STEPS (Scripted.start []))
    as (k & Hbound & Hsent & _ & _ & Happs).
  - reflexivity.
  - vm_compute. discriminate.
  - exists k. split; [exact Hbound|]. split; [exact Hsent|].
    apply Happs. reflexivity.
Defined.

(** C7, at a name that is not a key of [menuItems] but is a member of
    [Object.prototype].  [this.menuItems['constructor']] is a function,
    so the test [!target] does not reject it: whatever the page and the
    budget, the two up-moves are sent, and the call then fails on an
    expectation instead of the "Unknown menu item" error. *)
Theorem navigateToMenuItemByName_inherited_key :
  forall (W : Type) (H : World W) (maxSteps : Z) (s : St W),
    find (fun kv => (fst kv =? "constructor")%string) NavigationBar.menuItems
      = None
    /\ fst (NavigationBar.navigateToMenuItemByName "constructor" maxSteps s)
       = Throw ExpectError
    /\ sent (snd (NavigationBar.navigateToMenuItemByName "constructor" maxSteps s))
       = sent s ++ [RemoteControl.keys.UP; RemoteControl.keys.UP].
Proof.
  intros W H maxSteps s. split; [reflexivity|].
  assert (Hrun :
    NavigationBar.navigateToMenuItemByName "constructor" maxSteps s
    = (Throw ExpectError,
       set_page
         (snd (expect_toHaveAttribute NavigationBar.homeItem "data-focused"
                 "focused"
                 (page (pressed RemoteControl.keys.UP
                          (pressed RemoteControl.keys.UP s)))))
         (pressed RemoteControl.keys.UP (pressed RemoteControl.keys.UP s)))).
  { unfold NavigationBar.navigateToMenuItemByName.
    change (NavigationBar.get NavigationBar.menuItems "constructor")
      with (NavigationBar.Inherited "constructor").
    cbn [NavigationBar.truthy negb].
    unfold bind at 1. unfold RemoteControl.moveUp. rewrite pressKeyMultiple_two.
    unfold bind at 1. unfold await_or at 1. unfold bind at 1, observe at 1.
    destruct (expect_toHaveAttribute NavigationBar.homeItem "data-focused"
                "focused" _) as [[|] w]; reflexivity. }
  rewrite Hrun. cbn [fst snd set_page pressed sent].
  split; [reflexivity|]. now rewrite <- !app_assoc.
Qed.

(* ================================================================== *)
(** * Further properties of the code *)

(** ** The remote control *)

Section RemoteControlFacts.
Context {W : Type} `{World W}.

(** [n] turns of the loop of [pressKeyMultiple]. *)
Lemma pressKey_steps (key : string) (n : nat) :
  forall (i : Z) (s : St W),
    exists w',
      for_steps (R := unit) n i tt
        (fun _ _ => bind (RemoteControl.pressKey key) (fun _ => ret (Normal tt))) s
      = (Ok (inl tt), mkSt w' (sent s ++ repeat key n) (warned s)).
Proof.
  induction n as [|n IH]; intros i s.
  - exists (page s). cbn. unfold ret. rewrite app_nil_r. now destruct s.
  - rewrite for_steps_unfold. unfold bind at 1. rewrite pressKey_eq.
    cbn [ret]. destruct (IH (i + 1) (pressed key s)) as (w' & Erun).
    exists w'. rewrite Erun. cbn [pressed sent warned].
    now rewrite <- app_assoc.
Qed.

(** The clock after [n] turns, when every suspension lasts its time and
    a key event does not set the clock back. *)
Lemma pressKey_steps_elapse (key : string) (n : nat) :
  (forall k w, Date_now w <= Date_now (keyboard_press k w)) ->
  (forall ms w, Date_now w + ms <= Date_now (waitForTimeout ms w)) ->
  forall (i : Z) (s : St W),
    Date_now (page s) + RemoteControl.keyPressDelay * Z.of_nat n
    <= Date_now (page (snd (for_steps (R := unit) n i tt
                              (fun _ _ => bind (RemoteControl.pressKey key)
                                            (fun _ => ret (Normal tt))) s))).
Proof.
  intros Hkey Hwait. induction n as [|n IH]; intros i s.
  - cbn. lia.
  - rewrite for_steps_unfold. unfold bind at 1. rewrite pressKey_eq.
    cbn [ret]. specialize (IH (i + 1) (pressed key s)).
    cbn [pressed page] in IH.
    pose proof (Hkey key (page s)).
    pose proof (Hwait RemoteControl.keyPressDelay (keyboard_press key (page s))).
    lia.
Qed.

End RemoteControlFacts.

(** X1.  [pressKeyMultiple(key, times)] dispatches [key] exactly [times]
    times and nothing else, logs nothing and does not throw; for
    [times <= 0] it dispatches nothing. *)
Theorem pressKeyMultiple_sends_exactly :
  forall (W : Type) (H : World W) (key : string) (times : Z) (s : St W),
    exists w',
      RemoteControl.pressKeyMultiple key times s
      = (Ok tt, mkSt w' (sent s ++ repeat key (Z.to_nat times)) (warned s)).
Proof.
  intros W H key times s. unfold RemoteControl.pressKeyMultiple, for_lt.
  destruct (pressKey_steps key (Z.to_nat times) 0 s) as (w' & Erun).
  exists w'. unfold bind at 1. rewrite Erun. reflexivity.
Qed.

(** X2.  The settling delay: when a suspension of [ms] lasts at least
    [ms] and a key event does not set the clock back,
    [pressKeyMultiple(key, times)] with [times >= 0] returns no earlier
    than [times * KEY_PRESS_DELAY] after it was called. *)
Theorem pressKeyMultiple_settles :
  forall (W : Type) (H : World W) (key : string) (times : Z) (s : St W),
    (forall k w, Date_now w <= Date_now (keyboard_press k w)) ->
    (forall ms w, Date_now w + ms <= Date_now (waitForTimeout ms w)) ->
    0 <= times ->
    Date_now (page s) + times * TIMEOUTS.KEY_PRESS_DELAY
    <= Date_now (page (snd (RemoteControl.pressKeyMultiple key times s))).
Proof.
  intros W H key times s Hkey Hwait Htimes.
  unfold RemoteControl.pressKeyMultiple, for_lt.
  pose proof (pressKey_steps_elapse key (Z.to_nat times) Hkey Hwait 0 s) as Hel.
  destruct (pressKey_steps key (Z.to_nat times) 0 s) as (w' & Erun).
  unfold bind at 1. rewrite Erun in *. cbn [snd page ret] in *.
  unfold RemoteControl.keyPressDelay, TIMEOUTS.KEY_PRESS_DELAY in *.
  rewrite Z2Nat.id in Hel by exact Htimes. lia.
Qed.

(** X2 on the scripted page: three down-moves take 300 time units. *)
Lemma pressKeyMultiple_settles_witness :
  0 + 3 * TIMEOUTS.KEY_PRESS_DELAY
  <= Date_now (page (snd (RemoteControl.pressKeyMultiple "ArrowDown" 3
                            (Scripted.start [])))).
Proof.
  apply (pressKeyMultiple_settles Scripted.Tape Scripted.world "ArrowDown" 3
           (Scripted.start [])).
  - intros k w. unfold keyboard_press, Date_now. cbn. unfold Scripted.press.
    destruct (k =? "ArrowRight")%string; [cbn; lia|].
    destruct (k =? "ArrowLeft")%string; cbn; lia.
  - intros ms w. cbn. lia.
  - lia.
Defined.

(** ** More on normalisation *)

Lemma trimStartChars_head (l : list ascii) (c : ascii) (r : list ascii) :
  Js.trimStartChars l = c :: r -> Js.isWhiteSpace c = false.
Proof.
  induction l as [|a l IH]; cbn; [discriminate|].
  destruct (Js.isWhiteSpace a) eqn:Ea; [exact IH|].
  intro E. inversion E; subst. exact Ea.
Qed.

Lemma trimStartChars_idempotent (l : list ascii) :
  Js.trimStartChars (Js.trimStartChars l) = Js.trimStartChars l.
Proof.
  destruct (Js.trimStartChars l) as [|c r] eqn:E; [reflexivity|].
  cbn. now rewrite (trimStartChars_head l c r E).
Qed.

Lemma trimStartChars_split (l : list ascii) :
  exists ws, all_white ws /\ l = ws ++ Js.trimStartChars l.
Proof.
  induction l as [|a l (ws & Hws & IH)]; cbn.
  - exists []. split; [constructor|reflexivity].
  - destruct (Js.isWhiteSpace a) eqn:Ea.
    + exists (a :: ws). split; [now constructor|]. cbn. now rewrite <- IH.
    + exists []. split; [constructor|reflexivity].
Qed.

(** A string is its trimmed part with white space around it. *)
Lemma trimChars_split (l : list ascii) : padded (Js.trimChars l) l.
Proof.
  destruct (trimStartChars_split l) as (w1 & Hw1 & E1).
  destruct (trimStartChars_split (rev (Js.trimStartChars l))) as (w2 & Hw2 & E2).
  exists w1, (rev w2). split; [exact Hw1|]. split; [now apply Forall_rev|].
  unfold Js.trimChars. rewrite <- rev_app_distr, <- E2, rev_involutive.
  exact E1.
Qed.

(** Trimming the end does not uncover leading white space. *)
Lemma trimChars_no_leading (l : list ascii) :
  Js.trimStartChars (Js.trimChars l) = Js.trimChars l.
Proof.
  pose proof (trimStartChars_idempotent l) as Hz.
  unfold Js.trimChars.
  set (z := Js.trimStartChars l) in *.
  destruct (trimStartChars_split (rev z)) as (w2 & Hw2 & E).
  set (a := rev (Js.trimStartChars (rev z))).
  assert (Ez : z = a ++ rev w2).
  { subst a. rewrite <- rev_app_distr, <- E. now rewrite rev_involutive. }
  assert (Hr : all_white (rev w2)) by now apply Forall_rev.
  rewrite Ez in Hz. rewrite (trimStartChars_white_end a (rev w2) Hr) in Hz.
  destruct (Js.trimStartChars a) as [|c y] eqn:Et.
  - symmetry in Hz. apply app_eq_nil in Hz. now destruct Hz as [-> _].
  - now apply app_inv_tail in Hz.
Qed.

Lemma trimChars_no_trailing (l : list ascii) :
  Js.trimStartChars (rev (Js.trimChars l)) = rev (Js.trimChars l).
Proof.
  unfold Js.trimChars. rewrite rev_involutive.
  apply trimStartChars_idempotent.
Qed.

Lemma trimChars_idempotent (l : list ascii) :
  Js.trimChars (Js.trimChars l) = Js.trimChars l.
Proof.
  unfold Js.trimChars at 1.
  rewrite trimChars_no_leading, trimChars_no_trailing.
  apply rev_involutive.
Qed.

Lemma trimStartChars_lower (l : list ascii) :
  Js.trimStartChars (map Js.toLowerChar l)
  = map Js.toLowerChar (Js.trimStartChars l).
Proof.
  induction l as [|c l IH]; cbn; [reflexivity|].
  rewrite isWhiteSpace_toLowerChar.
  destruct (Js.isWhiteSpace c); [exact IH|reflexivity].
Qed.

Lemma trimChars_lower (l : list ascii) :
  Js.trimChars (map Js.toLowerChar l) = map Js.toLowerChar (Js.trimChars l).
Proof.
  unfold Js.trimChars.
  now rewrite trimStartChars_lower, <- map_rev, trimStartChars_lower, map_rev.
Qed.

(** The characters of [normalise (Some s)]. *)
Lemma normalise_chars (s : string) :
  list_ascii_of_string (normalise (Some s))
  = map Js.toLowerChar (Js.trimChars (list_ascii_of_string s)).
Proof.
  rewrite normalise_Some. unfold Js.trim, Js.toLowerCase.
  rewrite !list_ascii_of_string_of_list_ascii. apply trimChars_lower.
Qed.

Lemma string_of_chars_eq (a b : string) :
  list_ascii_of_string a = list_ascii_of_string b -> a = b.
Proof.
  intro E. rewrite <- (string_of_list_ascii_of_string a),
                   <- (string_of_list_ascii_of_string b).
  now rewrite E.
Qed.

Lemma map_toLowerChar_twice (l : list ascii) :
  map Js.toLowerChar (map Js.toLowerChar l) = map Js.toLowerChar l.
Proof.
  rewrite map_map. apply map_ext. apply toLowerChar_idempotent.
Qed.




(** X3.  [normalise] is idempotent: normalising its own result changes
    nothing, for strings and for [null]. *)
Theorem normalise_idempotent :
  forall v : Js.Nullable, normalise (Some (normalise v)) = normalise v.
Proof.
  intros [s|]; [|reflexivity].
  apply string_of_chars_eq.
  rewrite (normalise_chars (normalise (Some s))), (normalise_chars s).
  rewrite trimChars_lower, trimChars_idempotent.
  apply map_toLowerChar_twice.
Qed.

(** X4.  The result of [normalise] holds no letter that has a lower
    case, and neither starts nor ends with white space. *)
Theorem normalise_shape :
  forall v : Js.Nullable,
    let l := list_ascii_of_string (normalise v) in
    Forall (fun c => Js.toLowerChar c = c) l
    /\ (forall c r, l = c :: r -> Js.isWhiteSpace c = false)
    /\ (forall c r, l = r ++ [c] -> Js.isWhiteSpace c = false).
Proof.
  intros [s|]; cbv zeta.
  2:{ cbn. split; [constructor|]. split; intros c r E.
      - discriminate.
      - now destruct r. }
  rewrite normalise_chars, <- trimChars_lower.
  set (L := map Js.toLowerChar (list_ascii_of_string s)).
  split; [|split].
  - assert (HL : Forall (fun c => Js.toLowerChar c = c) L).
    { subst L. apply Forall_forall. intros c Hin.
      apply in_map_iff in Hin. destruct Hin as (c0 & <- & _).
      apply toLowerChar_idempotent. }
    destruct (trimChars_split L) as (w1 & w2 & _ & _ & E).
    rewrite E in HL. apply Forall_app in HL. destruct HL as [_ HL].
    apply Forall_app in HL. tauto.
  - intros c r E. apply (trimStartChars_head (Js.trimChars L) c r).
    now rewrite trimChars_no_leading.
  - intros c r E.
    apply (trimStartChars_head (rev (Js.trimChars L)) c (rev r)).
    rewrite trimChars_no_trailing, E, rev_app_distr. reflexivity.
Qed.


(** ** More on the focus observer *)

Section FocusObserverBounds.
Context {W : Type} `{World W}.
Variable getValueFn : W -> Js.Nullable * W.
Variable previousValue : Js.Nullable.
Variable timeout : Z.

Lemma poll_world_elapses :
  monotone_read getValueFn ->
  (forall ms w, Date_now w + ms <= Date_now (waitForTimeout ms w)) ->
  forall (k : nat) (w : W),
    TIMEOUTS.POLLING_INTERVAL * Z.of_nat k <= elapsed getValueFn k w.
Proof.
  intros Hmono Hwait. unfold elapsed, TIMEOUTS.POLLING_INTERVAL.
  induction k as [|k IH]; intro w; [cbn; lia|].
  cbn [poll_world].
  specialize (IH (waitForTimeout TIMEOUTS.POLLING_INTERVAL (snd (getValueFn w)))).
  pose proof (Hmono w).
  pose proof (Hwait TIMEOUTS.POLLING_INTERVAL (snd (getValueFn w))).
  unfold TIMEOUTS.POLLING_INTERVAL in *. lia.
Qed.

Lemma within_timeout_below_bound (k : nat) (e : Z) :
  TIMEOUTS.POLLING_INTERVAL * Z.of_nat k <= e -> e < timeout ->
  (k < polls_bound timeout)%nat.
Proof.
  unfold polls_bound, TIMEOUTS.POLLING_INTERVAL. intros Hk He.
  assert (Hq : Z.of_nat k + 1 <= (timeout + 50 - 1) / 50).
  { apply Z.div_le_lower_bound; lia. }
  lia.
Qed.


End FocusObserverBounds.

(** X6.  With a clock that advances and enough fuel,
    [waitForFocusChange] calls the accessor at most
    [ceil(timeout / POLLING_INTERVAL)] times: it ends either before poll
    [k] with [previousValue], for some [k] up to that bound, or right
    after poll [k] with the token polled, for some [k] below the bound. *)
Theorem waitForFocusChange_polls_bounded :
  forall (W : Type) (H : World W) (getValueFn : W -> Js.Nullable * W)
         (previousValue : Js.Nullable) (timeout : Z) (fuel : nat) (s : St W),
    monotone_read getValueFn ->
    (forall ms w, Date_now w + ms <= Date_now (waitForTimeout ms w)) ->
    (polls_bound timeout <= fuel)%nat ->
    exists k : nat,
      (waitForFocusChange fuel getValueFn previousValue timeout s
       = (Ok previousValue,
          set_page (poll_world getValueFn k (page s)) s)
       /\ (k <= polls_bound timeout)%nat)
      \/ (waitForFocusChange fuel getValueFn previousValue timeout s
          = (Ok (polled getValueFn k (page s)),
             set_page (snd (getValueFn (poll_world getValueFn k (page s)))) s)
          /\ (k < polls_bound timeout)%nat).
Proof.
  intros W H getValueFn previousValue timeout fuel s Hmono Hwait Hfuel.
  destruct (waitForFocusChange_loop_spec getValueFn previousValue timeout
              Hmono Hwait fuel (Date_now (page s)) s)
    as (k & v & w' & Hrun & Hbefore & Hend).
  { pose proof (polls_bound_enough timeout fuel Hfuel). lia. }
  assert (Erun : waitForFocusChange fuel getValueFn previousValue timeout s
                 = (Ok v, set_page w' s)) by exact Hrun.
  exists k. rewrite Erun.
  destruct Hend as [(Hne & Hin & Hpk & ->)|(-> & Hout & ->)].
  - right. rewrite Hpk. split; [reflexivity|].
    apply (within_timeout_below_bound timeout k
             (elapsed getValueFn k (page s))); [|exact Hin].
    now apply poll_world_elapses.
  - left. split; [reflexivity|].
    destruct k as [|k]; [lia|].
    destruct (Hbefore k (Nat.lt_succ_diag_r k)) as [Hin _].
    pose proof (within_timeout_below_bound timeout k
                  (elapsed getValueFn k (page s))
                  (poll_world_elapses getValueFn Hmono Hwait k (page s)) Hin).
    lia.
Qed.

(** X6 on the scripted page: nothing changes, the timeout is
    [FOCUS_CHANGE], and the call ends before poll 10. *)
Lemma waitForFocusChange_polls_bounded_witness :
  exists k : nat,
    (waitForFocusChange 10 (createTestIdFocusGetter FavouriteAppsRail)
       (Some "a") TIMEOUTS.FOCUS_CHANGE (Scripted.start [Some "a"])
     = (Ok (Some "a"),
        set_page (poll_world (createTestIdFocusGetter FavouriteAppsRail) k
                    (page (Scripted.start [Some "a"])))
          (Scripted.start [Some "a"]))
     /\ (k <= 10)%nat)
    \/ (waitForFocusChange 10 (createTestIdFocusGetter FavouriteAppsRail)
          (Some "a") TIMEOUTS.FOCUS_CHANGE (Scripted.start [Some "a"])
        = (Ok (polled (createTestIdFocusGetter FavouriteAppsRail) k
                 (page (Scripted.start [Some "a"]))),
           set_page (snd (createTestIdFocusGetter FavouriteAppsRail
                            (poll_world (createTestIdFocusGetter FavouriteAppsRail)
                               k (page (Scripted.start [Some "a"])))))
             (Scripted.start [Some "a"]))
        /\ (k < 10)%nat).
Proof.
  apply (waitForFocusChange_polls_bounded Scripted.Tape Scripted.world
           (createTestIdFocusGetter FavouriteAppsRail) (Some "a")
           TIMEOUTS.FOCUS_CHANGE 10 (Scripted.start [Some "a"])).
  - apply createTestIdFocusGetter_monotone.
  - intros ms w. cbn. lia.
  - vm_compute. lia.
Defined.


(** ** More on the menu bar *)

Lemma find_key_absent {A : Type} (obj : list (string * A)) (key : string) :
  ~ In key (map fst obj) ->
  find (fun kv => (fst kv =? key)%string) obj = None.
Proof.
  induction obj as [|[k a] obj IH]; cbn; [reflexivity|].
  intro Hnot. destruct (String.eqb_spec k key) as [->|Hne].
  - exfalso. apply Hnot. now left.
  - apply IH. intro Hin. apply Hnot. now right.
Qed.

Lemma find_key_present {A : Type} (obj : list (string * A)) (key : string)
    (k : string) (a : A) :
  find (fun kv => (fst kv =? key)%string) obj = Some (k, a) ->
  k = key /\ In (key, a) obj.
Proof.
  intro E. apply find_some in E. destruct E as [Hin Heq].
  cbn in Heq. apply String.eqb_eq in Heq. subst k. now split.
Qed.

Lemma get_Own_In (menuName : string) (e : NavigationBar.MenuEntry) :
  NavigationBar.get NavigationBar.menuItems menuName = NavigationBar.Own e ->
  In (menuName, e) NavigationBar.menuItems.
Proof.
  unfold NavigationBar.get.
  destruct (find _ NavigationBar.menuItems) as [[k a]|] eqn:E.
  - intro Eo. inversion Eo; subst.
    now destruct (find_key_present _ _ _ _ E).
  - destruct (existsb _ _); discriminate.
Qed.

Lemma menuItems_index_range (name : string) (e : NavigationBar.MenuEntry) :
  In (name, e) NavigationBar.menuItems -> 0 <= NavigationBar.index e <= 6.
Proof.
  cbn. intros [E|[E|[E|[E|[E|[E|[E|[]]]]]]]]; inversion E; cbn; lia.
Qed.

(** X8.  A name that is neither a key of [menuItems] nor a member of
    [Object.prototype] is rejected at once: the call throws the "Unknown
    menu item" error, which lists the seven valid names, and the state
    is untouched: no key is sent and the page is not consulted. *)
Theorem navigateToMenuItemByName_unknown_name :
  forall (W : Type) (H : World W) (menuName : string) (maxSteps : Z) (s : St W),
    ~ In menuName (map fst NavigationBar.menuItems) ->
    ~ In menuName NavigationBar.Object_prototype_keys ->
    NavigationBar.navigateToMenuItemByName menuName maxSteps s
    = (Throw (Error ("Unknown menu item: " ++ dquote ++ menuName ++ dquote
                       ++ ". Valid items: "
                       ++ "Search, Home, Tv Guide, Channels, Gaming, Free, Apps")),
       s).
Proof.
  intros W H menuName maxSteps s Hkey Hproto.
  apply navigateToMenuItemByName_undefined.
  unfold NavigationBar.get. rewrite (find_key_absent _ _ Hkey).
  destruct (existsb (String.eqb menuName) NavigationBar.Object_prototype_keys)
    eqn:Ex; [|reflexivity].
  apply existsb_exists in Ex. destruct Ex as (k & Hin & Heq).
  apply String.eqb_eq in Heq. subst k. contradiction.
Qed.

(** X8 on the scripted page: "Netflix" is an app, not a menu item. *)
Lemma navigateToMenuItemByName_unknown_name_witness :
  NavigationBar.navigateToMenuItemByName "Netflix"
    NAVIGATION_LIMITS.MAX_MENU_STEPS (Scripted.start [])
  = (Throw (Error ("Unknown menu item: " ++ dquote ++ "Netflix" ++ dquote
                     ++ ". Valid items: "
                     ++ "Search, Home, Tv Guide, Channels, Gaming, Free, Apps")),
     Scripted.start []).
Proof.
  apply (navigateToMenuItemByName_unknown_name Scripted.Tape Scripted.world
           "Netflix" NAVIGATION_LIMITS.MAX_MENU_STEPS (Scripted.start [])).
  - cbn. intuition discriminate.
  - cbn. intuition discriminate.
Defined.

Section MenuCursor.
Context {W : Type} `{World W}.
Variable pos : W -> Z.
Context `{!MenuBarLaws W pos}.

(** While the cursor is short of the target, every turn of a navigation
    loop moves it one step towards it. *)
Lemma menu_loop_cursor (name : string) (e : NavigationBar.MenuEntry)
    (key : string) (dir : Z) :
  In (name, e) NavigationBar.menuItems ->
  dir = 1 \/ dir = -1 ->
  (forall w, 0 < (NavigationBar.index e - pos w) * dir ->
             pos (keyboard_press key w) = pos w + dir) ->
  forall (n : nat) (i : Z) (s : St W),
    Z.of_nat n <= (NavigationBar.index e - pos (page s)) * dir ->
    exists w',
      for_steps (R := unit) n i tt
        (NavigationBar.menu_step (NavigationBar.Own e)
           (RemoteControl.pressKeyMultiple key 1)) s
      = (Ok (inl tt), mkSt w' (sent s ++ repeat key n) (warned s))
      /\ pos w' = pos (page s) + dir * Z.of_nat n.
Proof.
  intros Hin Hdir Hkey. induction n as [|n IH]; intros i s Hroom.
  - exists (page s). cbn. unfold ret. rewrite app_nil_r.
    split; [now destruct s|lia].
  - rewrite for_steps_unfold, menu_step_unfold.
    destruct (Js.strict_eq _ (Some "focused")) eqn:Efoc.
    + apply (menu_attribute name e (page s) Hin) in Efoc. nia.
    + set (s1 := pressed key
                   (set_page (snd (locator_getAttribute (NavigationBar.item e)
                                     "data-focused" (page s))) s)).
      assert (Hpos : pos (page s1) = pos (page s) + dir).
      { subst s1. cbn [pressed set_page page].
        rewrite menu_wait_pos, Hkey; rewrite menu_attribute_pos; [reflexivity|].
        nia. }
      destruct (IH (i + 1) s1) as (w' & Erun & Hw').
      { rewrite Hpos. nia. }
      exists w'. rewrite Erun. subst s1. cbn [pressed set_page sent warned].
      rewrite <- app_assoc. split; [reflexivity|].
      rewrite Hw', Hpos. lia.
Qed.

End MenuCursor.

(** X9.  On a menu bar that behaves as a cursor, for a key of
    [menuItems] whose distance from Home fits the budget: if Home is
    confirmed focused after the two up-moves, [navigateToMenuItemByName]
    returns the item's locator after exactly [|index - 1|] moves towards
    it, with the cursor on the item and nothing logged. *)
Theorem navigateToMenuItemByName_reaches_target :
  forall (W : Type) (H : World W) (pos : W -> Z) (L : MenuBarLaws W pos)
         (menuName : string) (e : NavigationBar.MenuEntry)
         (maxSteps : Z) (s : St W),
    NavigationBar.get NavigationBar.menuItems menuName = NavigationBar.Own e ->
    fst (expect_toHaveAttribute NavigationBar.homeItem "data-focused" "focused"
           (page (pressed RemoteControl.keys.UP
                    (pressed RemoteControl.keys.UP s)))) = true ->
    Z.abs (NavigationBar.index e - 1) <= maxSteps ->
    exists w',
      NavigationBar.navigateToMenuItemByName menuName maxSteps s
      = (Ok (Some (NavigationBar.item e)),
         mkSt w'
           (sent s ++ [RemoteControl.keys.UP; RemoteControl.keys.UP]
              ++ repeat (if NavigationBar.index e >? 1
                         then RemoteControl.keys.RIGHT
                         else RemoteControl.keys.LEFT)
                   (Z.to_nat (Z.abs (NavigationBar.index e - 1))))
           (warned s))
      /\ pos w' = NavigationBar.index e.
Proof.
  intros W H pos L menuName e maxSteps s Hget Hhome Hbudget.
  pose proof (get_Own_In menuName e Hget) as Hin.
  pose proof (menuItems_index_range menuName e Hin) as Hrange.
  rewrite (navigateToMenuItemByName_own menuName e maxSteps s Hget).
  destruct (expect_toHaveAttribute NavigationBar.homeItem "data-focused"
              "focused" _) as [ok w] eqn:Ehome.
  cbn [fst] in Hhome. subst ok.
  assert (Hpos1 : pos w = 1).
  { pose proof (menu_expect_pos NavigationBar.homeItem "data-focused" "focused"
                  (page (pressed RemoteControl.keys.UP
                           (pressed RemoteControl.keys.UP s)))) as Hp.
    rewrite Ehome in Hp. cbn [snd] in Hp. rewrite Hp.
    apply (menu_expect "Home" (NavigationBar.mkEntry NavigationBar.homeItem 1)).
    - cbn. tauto.
    - cbn [NavigationBar.item]. now rewrite Ehome. }
  replace (Z.min (Z.abs (NavigationBar.index e - 1)) maxSteps)
    with (Z.abs (NavigationBar.index e - 1)) by lia.
  set (s2 := set_page w (pressed RemoteControl.keys.UP
                           (pressed RemoteControl.keys.UP s))).
  destruct (menu_loop_cursor pos menuName e
              (if NavigationBar.index e >? 1
               then RemoteControl.keys.RIGHT else RemoteControl.keys.LEFT)
              (if NavigationBar.index e >? 1 then 1 else -1) Hin)
    with (n := Z.to_nat (Z.abs (NavigationBar.index e - 1))) (i := 0) (s := s2)
    as (w' & Erun & Hw').
  - destruct (NavigationBar.index e >? 1); auto.
  - intros w0 Hgap. destruct (NavigationBar.index e >? 1).
    + rewrite menu_right. lia.
    + rewrite menu_left. lia.
  - subst s2. cbn [set_page page]. rewrite Hpos1.
    destruct (NavigationBar.index e >? 1) eqn:Egt; lia.
  - rewrite Erun. cbn [page].
    assert (Hthere : pos w' = NavigationBar.index e).
    { rewrite Hw'. subst s2. cbn [set_page page]. rewrite Hpos1.
      destruct (NavigationBar.index e >? 1) eqn:Egt; lia. }
    destruct (expect_toHaveAttribute (NavigationBar.item e) "data-focused"
                "focused" w') as [ok w''] eqn:Efinal.
    assert (Hok : ok = true).
    { change ok with (fst (ok, w'')). rewrite <- Efinal.
      now apply (menu_expect menuName e w' Hin). }
    subst ok. exists w''. split.
    + subst s2. cbn [set_page pressed sent warned].
      now rewrite <- !app_assoc.
    + pose proof (menu_expect_pos (NavigationBar.item e) "data-focused"
                    "focused" w') as Hp.
      rewrite Efinal in Hp. cbn [snd] in Hp. now rewrite Hp.
Qed.

(** X10.  On a menu bar that behaves as a cursor, for a key of
    [menuItems] that lies further from Home than the budget allows: if
    Home is confirmed focused, [navigateToMenuItemByName] makes exactly
    [maxSteps] moves towards the item and then throws on its final
    expectation; it does not return. *)
Theorem navigateToMenuItemByName_budget_too_small :
  forall (W : Type) (H : World W) (pos : W -> Z) (L : MenuBarLaws W pos)
         (menuName : string) (e : NavigationBar.MenuEntry)
         (maxSteps : Z) (s : St W),
    NavigationBar.get NavigationBar.menuItems menuName = NavigationBar.Own e ->
    fst (expect_toHaveAttribute NavigationBar.homeItem "data-focused" "focused"
           (page (pressed RemoteControl.keys.UP
                    (pressed RemoteControl.keys.UP s)))) = true ->
    0 <= maxSteps < Z.abs (NavigationBar.index e - 1) ->
    exists w',
      NavigationBar.navigateToMenuItemByName menuName maxSteps s
      = (Throw ExpectError,
         mkSt w'
           (sent s ++ [RemoteControl.keys.UP; RemoteControl.keys.UP]
              ++ repeat (if NavigationBar.index e >? 1
                         then RemoteControl.keys.RIGHT
                         else RemoteControl.keys.LEFT)
                   (Z.to_nat maxSteps))
           (warned s)).
Proof.
  intros W H pos L menuName e maxSteps s Hget Hhome Hbudget.
  pose proof (get_Own_In menuName e Hget) as Hin.
  pose proof (menuItems_index_range menuName e Hin) as Hrange.
  rewrite (navigateToMenuItemByName_own menuName e maxSteps s Hget).
  destruct (expect_toHaveAttribute NavigationBar.homeItem "data-focused"
              "focused" _) as [ok w] eqn:Ehome.
  cbn [fst] in Hhome. subst ok.
  assert (Hpos1 : pos w = 1).
  { pose proof (menu_expect_pos NavigationBar.homeItem "data-focused" "focused"
                  (page (pressed RemoteControl.keys.UP
                           (pressed RemoteControl.keys.UP s)))) as Hp.
    rewrite Ehome in Hp. cbn [snd] in Hp. rewrite Hp.
    apply (menu_expect "Home" (NavigationBar.mkEntry NavigationBar.homeItem 1)).
    - cbn. tauto.
    - cbn [NavigationBar.item]. now rewrite Ehome. }
  replace (Z.min (Z.abs (NavigationBar.index e - 1)) maxSteps)
    with maxSteps by lia.
  set (s2 := set_page w (pressed RemoteControl.keys.UP
                           (pressed RemoteControl.keys.UP s))).
  destruct (menu_loop_cursor pos menuName e
              (if NavigationBar.index e >? 1
               then RemoteControl.keys.RIGHT else RemoteControl.keys.LEFT)
              (if NavigationBar.index e >? 1 then 1 else -1) Hin)
    with (n := Z.to_nat maxSteps) (i := 0) (s := s2)
    as (w' & Erun & Hw').
  - destruct (NavigationBar.index e >? 1); auto.
  - intros w0 Hgap. destruct (NavigationBar.index e >? 1).
    + rewrite menu_right. lia.
    + rewrite menu_left. lia.
  - subst s2. cbn [set_page page]. rewrite Hpos1.
    destruct (NavigationBar.index e >? 1) eqn:Egt; lia.
  - rewrite Erun. cbn [page].
    assert (Hshort : pos w' <> NavigationBar.index e).
    { rewrite Hw'. subst s2. cbn [set_page page]. rewrite Hpos1.
      destruct (NavigationBar.index e >? 1) eqn:Egt; lia. }
    destruct (expect_toHaveAttribute (NavigationBar.item e) "data-focused"
                "focused" w') as [ok w''] eqn:Efinal.
    assert (Hok : ok = false).
    { destruct ok; [|reflexivity]. exfalso. apply Hshort.
      apply (menu_expect menuName e w' Hin). now rewrite Efinal. }
    subst ok. exists w''.
    subst s2. cbn [set_page pressed sent warned].
    now rewrite <- !app_assoc.
Qed.

(** The menu bar of the scripted page is a cursor. *)
#[global] Instance Scripted_menu_laws : MenuBarLaws Scripted.Tape Scripted.menu_pos.
Proof.
  split.
  - intros name e w.
    cbn. intros [E|[E|[E|[E|[E|[E|[E|[]]]]]]]]; inversion E; subst;
      cbn -[Z.eqb];
      match goal with
      | |- context [?i =? Scripted.menu_pos w] =>
          destruct (Z.eqb_spec i (Scripted.menu_pos w)); cbn;
          split; intro; try discriminate; try lia; try reflexivity
      end.
  - intros l a w. destruct l; cbn; try reflexivity.
    + unfold Scripted.advance.
      destruct (Scripted.tape w) as [|? [|? ?]]; reflexivity.
    + destruct (NavigationBar.get NavigationBar.menuItems name); reflexivity.
  - intros name e w.
    cbn. intros [E|[E|[E|[E|[E|[E|[E|[]]]]]]]]; inversion E; subst;
      cbn -[Z.eqb];
      match goal with
      | |- context [?i =? Scripted.menu_pos w] =>
          destruct (Z.eqb_spec i (Scripted.menu_pos w)); cbn;
          split; intro; try discriminate; try lia; try reflexivity
      end.
  - intros l a v w. destruct l; cbn; try reflexivity.
    unfold Scripted.has_attribute. cbn.
    destruct (NavigationBar.get NavigationBar.menuItems name); reflexivity.
  - intros ms w. reflexivity.
  - intro w. reflexivity.
  - intro w. reflexivity.
Qed.

(** X9 on the scripted page: from Home to "Apps" with the default
    budget. *)
Lemma navigateToMenuItemByName_reaches_target_witness :
  exists w',
    NavigationBar.navigateToMenuItemByName "Apps"
      NAVIGATION_LIMITS.MAX_MENU_STEPS (Scripted.start [])
    = (Ok (Some NavigationBar.appsItem),
       mkSt w'
         (["ArrowUp"; "ArrowUp"] ++ repeat "ArrowRight" 5) [])
    /\ Scripted.menu_pos w' = 6.
Proof.
  apply (navigateToMenuItemByName_reaches_target Scripted.Tape Scripted.world
           Scripted.menu_pos Scripted_menu_laws "Apps"
           (NavigationBar.mkEntry NavigationBar.appsItem 6)
           NAVIGATION_LIMITS.MAX_MENU_STEPS (Scripted.start [])).
  - reflexivity.
  - reflexivity.
  - vm_compute. discriminate.
Defined.

(** X10 on the scripted page: "Apps" is five moves from Home, the budget
    is 3. *)
Lemma navigateToMenuItemByName_budget_too_small_witness :
  exists w',
    NavigationBar.navigateToMenuItemByName "Apps" 3 (Scripted.start [])
    = (Throw ExpectError,
       mkSt w' (["ArrowUp"; "ArrowUp"] ++ repeat "ArrowRight" 3) []).
Proof.
  apply (navigateToMenuItemByName_budget_too_small Scripted.Tape Scripted.world
           Scripted.menu_pos Scripted_menu_laws "Apps"
           (NavigationBar.mkEntry NavigationBar.appsItem 6)
           3 (Scripted.start [])).
  - reflexivity.
  - reflexivity.
  - vm_compute. split; [discriminate|reflexivity].
Defined.

(** ** More on the search of the Favourite Apps rail *)


(** A configuration reached after an iteration that fell through. *)
Lemma IterReach_prepend {W V R : Type} (body : Z -> V -> M W (Completion V R))
    (i : Z) (v v' : V) (s s1 : St W) (j : Z) (u : V) (t : St W) :
  body i v s = (Ok (Normal v'), s1) ->
  IterReach body (i + 1) v' s1 j u t ->
  IterReach body i v s j u t.
Proof.
  intros Hbody Hreach. induction Hreach as [|j u t u' t' _ IH Hnext].
  - apply (IterReach_next body i v s i v s v' s1); [constructor|assumption].
  - apply (IterReach_next body i v s j u t u' t'); assumption.
Qed.

Section FavouriteAppsOutcomes.
Context {W : Type} `{World W}.
Variable fuel : nat.
Variable appName : string.

Local Abbreviation getter := (createTestIdFocusGetter FavouriteAppsRail).
Local Abbreviation step :=
  (HomeScreenPage.navigateToApp_step fuel appName (normalise (Some appName)) getter).

(** An iteration that falls through has sent one right-move and logged
    nothing. *)
Lemma navigateToApp_step_normal (i : Z) (s s' : St W) :
  step i tt s = (Ok (Normal tt), s') ->
  sent s' = sent s ++ [RemoteControl.keys.RIGHT] /\ warned s' = warned s.
Proof.
  rewrite navigateToApp_step_unfold. cbv zeta.
  destruct (Js.truthy _ && _); [discriminate|].
  destruct (waitForFocusChange fuel getter _ TIMEOUTS.FOCUS_CHANGE _)
    as [[newId|e|] s3] eqn:Ew; try discriminate.
  apply waitForFocusChange_keeps in Ew.
  destruct (Js.strict_eq newId _); [discriminate|].
  intro E. inversion E; subst. exact Ew.
Qed.

Lemma navigateToApp_reach_sent (i : Z) (s : St W) (j : Z) (t : St W) :
  IterReach step i tt s j tt t ->
  sent t = sent s ++ repeat RemoteControl.keys.RIGHT (Z.to_nat (j - i))
  /\ warned t = warned s.
Proof.
  intro Hreach.
  destruct (for_steps_reach step i tt s j tt t Hreach) as [Hle _].
  revert Hle.
  induction Hreach as [|j u t u' t' Hreach IH Hbody]; intro Hle.
  - rewrite Z.sub_diag. cbn. now rewrite app_nil_r.
  - destruct (for_steps_reach step i tt s j u t Hreach) as [Hle' _].
    destruct u. destruct (IH Hle') as [Hs Hw].
    destruct u'. apply navigateToApp_step_normal in Hbody.
    destruct Hbody as [Hs' Hw'].
    split; [|congruence].
    rewrite Hs', Hs, <- app_assoc.
    replace (Z.to_nat (j + 1 - i)) with (S (Z.to_nat (j - i))) by lia.
    cbn [repeat]. now rewrite repeat_cons.
Qed.


(** A loop that returns [true] does so at an iteration it reached, on
    a non-empty token whose normalisation is the target. *)
Lemma navigateToApp_loop_found (n : nat) :
  forall (i : Z) (s s' : St W),
    for_steps n i tt step s = (Ok (inr true), s') ->
    exists (j : Z) (t : St W),
      IterReach step i tt s j tt t
      /\ i <= j < i + Z.of_nat n
      /\ Js.truthy (fst (getter (page t))) = true
      /\ normalise (fst (getter (page t))) = normalise (Some appName)
      /\ s' = set_page (snd (getter (page t))) t.
Proof.
  induction n as [|n IH]; intros i s s'.
  - cbn. unfold ret. discriminate.
  - rewrite for_steps_unfold.
    destruct (step i tt s) as [[[u|u|b]|e|] s1] eqn:Estep; try discriminate.
    + intro E. destruct u. apply IH in E.
      destruct E as (j & t & Hreach & Hj & Htruthy & Hnorm & Es').
      exists j, t. split; [exact (IterReach_prepend _ _ _ _ _ _ _ _ _ Estep Hreach)|].
      repeat split; try assumption; lia.
    + intro E. inversion E; subst.
      rewrite navigateToApp_step_unfold in Estep. cbv zeta in Estep.
      destruct (Js.truthy (fst (getter (page s)))
                && (normalise (fst (getter (page s)))
                    =? normalise (Some appName))%string) eqn:Ematch.
      * inversion Estep; subst. apply andb_true_iff in Ematch.
        destruct Ematch as [Htruthy Hnorm]. apply String.eqb_eq in Hnorm.
        exists i, s. split; [constructor|]. repeat split; try assumption; lia.
      * destruct (waitForFocusChange fuel getter _ TIMEOUTS.FOCUS_CHANGE _)
          as [[newId|e|] s3]; try discriminate.
        destruct (Js.strict_eq newId _); discriminate.
Qed.

End FavouriteAppsOutcomes.


(** X12.  [navigateToApp] returns [true] only on a match: if it returns
    [true], the rail was visible and at some iteration it reached within
    the budget the token read was non-empty with the normalisation of
    the target; the call returned right after that read. *)
Theorem navigateToApp_true_is_match :
  forall (W : Type) (H : World W) (fuel : nat) (appName : string)
         (maxSteps : Z) (s s' : St W),
    HomeScreenPage.navigateToApp fuel appName maxSteps s = (Ok true, s') ->
    exists (w1 : W) (j : Z) (t : St W),
      locator_waitFor_visible FavouriteAppsRail (page s) = (true, w1)
      /\ IterReach
           (HomeScreenPage.navigateToApp_step fuel appName
              (normalise (Some appName))
              (createTestIdFocusGetter FavouriteAppsRail))
           0 tt (set_page w1 s) j tt t
      /\ 0 <= j < maxSteps
      /\ Js.truthy (fst (createTestIdFocusGetter FavouriteAppsRail (page t)))
         = true
      /\ normalise (fst (createTestIdFocusGetter FavouriteAppsRail (page t)))
         = normalise (Some appName)
      /\ s' = set_page (snd (createTestIdFocusGetter FavouriteAppsRail (page t))) t.
Proof.
  intros W H fuel appName maxSteps s s'.
  destruct (locator_waitFor_visible FavouriteAppsRail (page s))
    as [[|] w1] eqn:Hvis.
  - rewrite (navigateToApp_visible fuel appName maxSteps s w1 Hvis).
    unfold for_lt.
    destruct (for_steps (Z.to_nat maxSteps) 0 tt _ (set_page w1 s))
      as [[[u|b]|e|] s1] eqn:Eloop; try discriminate.
    intro E. inversion E; subst.
    apply navigateToApp_loop_found in Eloop.
    destruct Eloop as (j & t & Hreach & Hj & Htruthy & Hnorm & Es').
    exists w1, j, t. repeat split; try assumption; lia.
  - rewrite (navigateToApp_not_visible fuel appName maxSteps s w1 Hvis).
    discriminate.
Qed.

(** X12 on the scripted page: "Netflix" is found on the second app. *)
Lemma navigateToApp_true_is_match_witness :
  exists (w1 : Scripted.Tape) (j : Z) (t : St Scripted.Tape),
    locator_waitFor_visible FavouriteAppsRail
      (page (Scripted.start [Some "watch-tv"; Some "netflix"; Some "netflix"]))
    = (true, w1)
    /\ IterReach
         (HomeScreenPage.navigateToApp_step 10 "Netflix"
            (normalise (Some "Netflix"))
            (createTestIdFocusGetter FavouriteAppsRail))
         0 tt
         (set_page w1
            (Scripted.start [Some "watch-tv"; Some "netflix"; Some "netflix"]))
         j tt t
    /\ 0 <= j < NAVIGATION_LIMITS.MAX_RAIL_STEPS
    /\ Js.truthy (fst (createTestIdFocusGetter FavouriteAppsRail (page t)))
       = true
    /\ normalise (fst (createTestIdFocusGetter FavouriteAppsRail (page t)))
       = normalise (Some "Netflix")
    /\ mkSt (Scripted.mkTape 100 [Some "netflix"] 2) ["ArrowRight"] []
       = set_page (snd (createTestIdFocusGetter FavouriteAppsRail (page t))) t.
Proof.
  apply (navigateToApp_true_is_match Scripted.Tape Scripted.world 10 "Netflix"
           NAVIGATION_LIMITS.MAX_RAIL_STEPS
           (Scripted.start [Some "watch-tv"; Some "netflix"; Some "netflix"])).
  reflexivity.
Defined.

(** X13.  The last move of an exhausted budget is not checked.  If the
    rail is visible and all [maxSteps] iterations end with a change of
    focus, [navigateToApp] returns [false] with the "max steps reached"
    warning after exactly [maxSteps] right-moves, in the state the last
    iteration left: the focus is not read again, so the token the last
    move focused is not compared with the target. *)
Theorem navigateToApp_budget_exhausted :
  forall (W : Type) (H : World W) (fuel : nat) (appName : string)
         (maxSteps : Z) (s : St W) (w1 : W) (t : St W),
    locator_waitFor_visible FavouriteAppsRail (page s) = (true, w1) ->
    IterReach
      (HomeScreenPage.navigateToApp_step fuel appName (normalise (Some appName))
         (createTestIdFocusGetter FavouriteAppsRail))
      0 tt (set_page w1 s) maxSteps tt t ->
    HomeScreenPage.navigateToApp fuel appName maxSteps s
    = (Ok false,
       mkSt (page t)
         (sent s ++ repeat RemoteControl.keys.RIGHT (Z.to_nat maxSteps))
         (warned s ++
            [navigationFailureMessage "app navigation (max steps reached)"
               appName None])).
Proof.
  intros W H fuel appName maxSteps s w1 t Hvis Hreach.
  rewrite (navigateToApp_visible fuel appName maxSteps s w1 Hvis).
  destruct (for_steps_reach _ 0 tt (set_page w1 s) maxSteps tt t Hreach)
    as [Hle Hgo].
  destruct (navigateToApp_reach_sent fuel appName 0 (set_page w1 s) maxSteps t
              Hreach) as [Hs Hw].
  unfold for_lt. specialize (Hgo O).
  rewrite Z.sub_0_r, Nat.add_0_r in Hgo. rewrite Hgo.
  cbn [for_steps]. unfold ret, logged.
  cbn [set_page sent warned] in Hs, Hw.
  rewrite Hs, Hw, Z.sub_0_r. reflexivity.
Qed.

(** X13 on the scripted page: with a budget of 1 the move from "a"
    focuses "netflix", and the search for "netflix" still fails. *)
Lemma navigateToApp_budget_exhausted_witness :
  HomeScreenPage.navigateToApp 10 "netflix" 1
    (Scripted.start [Some "a"; Some "netflix"])
  = (Ok false,
     mkSt (Scripted.mkTape 100 [Some "netflix"] 2)
       ([] ++ repeat "ArrowRight" 1)
       ([] ++ [navigationFailureMessage "app navigation (max steps reached)"
                 "netflix" None])).
Proof.
  apply (navigateToApp_budget_exhausted Scripted.Tape Scripted.world 10
           "netflix" 1 (Scripted.start [Some "a"; Some "netflix"])
           (Scripted.mkTape 0 [Some "a"; Some "netflix"] 1)
           (mkSt (Scripted.mkTape 100 [Some "netflix"] 2) ["ArrowRight"] [])).
  - reflexivity.
  - apply (IterReach_next _ 0 tt _ 0 tt _ tt _ (IterReach_here _ _ _ _)).
    reflexivity.
Defined.

(** ** More on the search of the Video rail *)

Section VideoRailBounds.
Context {W : Type} `{World W}.

(** One turn of the first loop: one down-move, nothing logged. *)
Lemma enterVideoRail_step_sent (i : Z) (s : St W) :
  exists r s',
    HomeScreenPage.enterVideoRail_step i tt s = (r, s')
    /\ sent s' = sent s ++ [RemoteControl.keys.DOWN]
    /\ warned s' = warned s
    /\ (r = Ok (Normal tt) \/ r = Ok (Break tt) \/ r = Throw TimeoutError).
Proof.
  unfold HomeScreenPage.enterVideoRail_step, RemoteControl.moveDown.
  unfold bind at 1. rewrite pressKeyMultiple_one.
  unfold HomeScreenPage.isVideoRailItemFocused.
  unfold bind at 1. unfold bind at 1. unfold observe at 1.
  destruct (locator_count (FocusedListItem VideoRail)
              (page (pressed RemoteControl.keys.DOWN s))) as [n w].
  cbn [ret]. destruct (n >? 0).
  - eexists _, _. split; [reflexivity|]. cbn. auto.
  - unfold bind at 1.
    destruct (i <? NAVIGATION_LIMITS.MAX_DOWN_STEPS - 1).
    + unfold await_or, bind at 1, observe.
      cbn [page set_page pressed].
      destruct (waitForLoadState "domcontentloaded" w) as [[|] w'];
        eexists _, _; (split; [reflexivity|]); cbn; auto.
    + eexists _, _. split; [reflexivity|]. cbn. auto.
Qed.

(** The first loop sends between 1 and [n] down-moves and nothing else. *)
Lemma enterVideoRail_loop_sent (n : nat) :
  forall (i : Z) (s : St W),
    exists r s' d,
      for_steps n i tt HomeScreenPage.enterVideoRail_step s = (r, s')
      /\ (r = Ok (inl tt) \/ r = Throw TimeoutError)
      /\ sent s' = sent s ++ repeat RemoteControl.keys.DOWN d
      /\ warned s' = warned s
      /\ (d <= n)%nat
      /\ ((1 <= n)%nat -> (1 <= d)%nat).
Proof.
  induction n as [|n IH]; intros i s.
  - exists (Ok (inl tt)), s, O. cbn. unfold ret. rewrite app_nil_r.
    repeat split; auto; lia.
  - rewrite for_steps_unfold.
    destruct (enterVideoRail_step_sent i s) as (r & s1 & Estep & Hs & Hw & Hr).
    rewrite Estep. destruct Hr as [-> | [-> | ->]].
    + destruct (IH (i + 1) s1) as (r' & s' & d & Erun & Hr' & Hs' & Hw' & Hd & _).
      exists r', s', (S d). rewrite Erun.
      repeat split; try assumption; try lia; try congruence.
      rewrite Hs', Hs, <- app_assoc. reflexivity.
    + exists (Ok (inl tt)), s1, 1%nat.
      repeat split; auto; lia.
    + exists (Throw TimeoutError), s1, 1%nat.
      repeat split; auto; lia.
Qed.

(** The search loop sends right-moves only, at most one per turn, and
    ends when the clock advances. *)
Lemma videoRailSearch_loop_sent `{!ClockLaws W} (fuel : nat) (appName : string)
    (n : nat) :
  (polls_bound TIMEOUTS.POLLING <= fuel)%nat ->
  forall (i : Z) (previousTestId : Js.Nullable) (s : St W),
    exists c s' k,
      for_steps n i previousTestId
        (HomeScreenPage.videoRailSearch_step fuel appName
           (createTestIdFocusGetter VideoRail)) s = (Ok c, s')
      /\ c <> inr true
      /\ sent s' = sent s ++ repeat RemoteControl.keys.RIGHT k
      /\ (k <= n)%nat.
Proof.
  intro Hfuel. induction n as [|n IH]; intros i previousTestId s.
  - exists (inl previousTestId), s, O. cbn. unfold ret. rewrite app_nil_r.
    repeat split; auto. discriminate.
  - rewrite for_steps_unfold, videoRailSearch_step_unfold. cbv zeta.
    destruct (Js.strict_eq _ (Some appName)).
    { eexists _, _, O. split; [reflexivity|]. cbn. rewrite app_nil_r.
      split; [discriminate|]. split; [reflexivity|lia]. }
    destruct (Js.strict_eq _ None || _).
    { eexists _, _, O. split; [reflexivity|]. cbn. rewrite app_nil_r.
      split; [discriminate|]. split; [reflexivity|lia]. }
    destruct (waitForFocusChange_returns (createTestIdFocusGetter VideoRail)
                (fst (createTestIdFocusGetter VideoRail (page s)))
                TIMEOUTS.POLLING fuel
                (pressed RemoteControl.keys.RIGHT
                   (set_page (snd (createTestIdFocusGetter VideoRail (page s))) s)))
      as (v & w' & Erun).
    + apply createTestIdFocusGetter_monotone.
    + apply waitForTimeout_elapses.
    + exact Hfuel.
    + rewrite Erun. destruct (Js.strict_eq v _).
      * eexists _, _, 1%nat. split; [reflexivity|]. cbn.
        split; [discriminate|]. split; [reflexivity|lia].
      * destruct (IH (i + 1) (fst (createTestIdFocusGetter VideoRail (page s)))
                    (set_page w'
                       (pressed RemoteControl.keys.RIGHT
                          (set_page (snd (createTestIdFocusGetter VideoRail
                                            (page s))) s))))
          as (c & s' & k & Eloop & Hc & Hs & Hk).
        exists c, s', (S k). rewrite Eloop. split; [reflexivity|].
        split; [exact Hc|].
        split; [|lia]. rewrite Hs. cbn. now rewrite <- app_assoc.
Qed.

(** What follows the search loop sends at most three presses of the
    select key: three when it returns [true], none when it returns
    [false]. *)
Lemma addFocusedAppToFavorites_sent (appName : string)
    (getFocusedTestId : W -> Js.Nullable * W) (s : St W) :
  exists r s' e,
    HomeScreenPage.addFocusedAppToFavorites appName getFocusedTestId s = (r, s')
    /\ r <> OutOfFuel
    /\ sent s' = sent s ++ repeat RemoteControl.keys.SELECT e
    /\ (e <= 3)%nat
    /\ (r = Ok true -> e = 3%nat)
    /\ (r = Ok false -> e = O).
Proof.
  unfold HomeScreenPage.addFocusedAppToFavorites, HomeScreenPage.waitForHomeScreen,
    RemoteControl.select.
  unfold bind at 1, observe at 1.
  destruct (getFocusedTestId (page s)) as [finalTestId w0].
  destruct (negb (Js.strict_eq finalTestId (Some appName))).
  { eexists _, _, O. split; [reflexivity|]. cbn. rewrite app_nil_r.
    repeat split; auto; try discriminate; lia. }
  unfold bind at 1. rewrite pressKey_eq.
  unfold bind at 1. unfold await_or at 1. unfold bind at 1, observe at 1.
  destruct (expect_toHaveAttribute FavButton "data-focused" "true" _) as [[|] w1].
  2:{ eexists _, _, 1%nat. split; [reflexivity|]. cbn.
      repeat split; auto; try discriminate; lia. }
  cbn [ret]. unfold bind at 1. rewrite pressKey_eq.
  unfold bind at 1. unfold bind at 1. unfold await_or at 1.
  unfold bind at 1, observe at 1.
  destruct (waitForLoadState "networkidle" _) as [[|] w2].
  2:{ eexists _, _, 2%nat. split; [reflexivity|]. cbn.
      rewrite <- !app_assoc.
      repeat split; auto; try discriminate; lia. }
  cbn [ret]. unfold await_or at 1. unfold bind at 1, observe at 1.
  destruct (expect_toBeVisible NavRoot _) as [[|] w3].
  2:{ eexists _, _, 2%nat. split; [reflexivity|]. cbn.
      rewrite <- !app_assoc.
      repeat split; auto; try discriminate; lia. }
  cbn [ret]. unfold bind at 1. rewrite pressKey_eq.
  eexists _, _, 3%nat. split; [reflexivity|]. cbn.
  rewrite <- !app_assoc.
  repeat split; auto; try discriminate; lia.
Qed.

End VideoRailBounds.

(** X14.  With a clock that advances and fuel for one polling timeout,
    [addAppToFavoritesFromAppsPage] ends, by returning or by throwing.
    All it sends is, in this order, between 1 and [MAX_DOWN_STEPS]
    down-moves, at most [MAX_APP_SEARCH_STEPS] right-moves and at most
    three presses of the select key: exactly three when it returns
    [true] and none when it returns [false]. *)
Theorem addAppToFavoritesFromAppsPage_keys_bounded :
  forall (W : Type) (H : World W) (L : ClockLaws W) (fuel : nat)
         (appName : string) (s : St W),
    (polls_bound TIMEOUTS.POLLING <= fuel)%nat ->
    exists (r : Res bool) (s' : St W) (d k e : nat),
      HomeScreenPage.addAppToFavoritesFromAppsPage fuel appName s = (r, s')
      /\ r <> OutOfFuel
      /\ sent s' = sent s ++ repeat RemoteControl.keys.DOWN d
                     ++ repeat RemoteControl.keys.RIGHT k
                     ++ repeat RemoteControl.keys.SELECT e
      /\ 1 <= Z.of_nat d <= NAVIGATION_LIMITS.MAX_DOWN_STEPS
      /\ Z.of_nat k <= NAVIGATION_LIMITS.MAX_APP_SEARCH_STEPS
      /\ (e <= 3)%nat
      /\ (r = Ok true -> e = 3%nat)
      /\ (r = Ok false -> e = O).
Proof.
  intros W H L fuel appName s Hfuel.
  unfold HomeScreenPage.addAppToFavoritesFromAppsPage, for_lt.
  destruct (enterVideoRail_loop_sent
              (Z.to_nat NAVIGATION_LIMITS.MAX_DOWN_STEPS) 0 s)
    as (r0 & s1 & d & Eenter & Hr0 & Hs1 & _ & Hd & Hd1).
  assert (Hdown : 1 <= Z.of_nat d <= NAVIGATION_LIMITS.MAX_DOWN_STEPS).
  { unfold NAVIGATION_LIMITS.MAX_DOWN_STEPS in *.
    assert (1 <= Z.to_nat 15)%nat by (vm_compute; lia).
    specialize (Hd1 ltac:(assumption)). lia. }
  unfold bind at 1. rewrite Eenter.
  destruct Hr0 as [-> | ->].
  2:{ exists (Throw TimeoutError), s1, d, O, O. cbn [repeat].
      rewrite !app_nil_r.
      repeat split; auto; try discriminate; try lia. }
  unfold HomeScreenPage.isVideoRailItemFocused.
  unfold bind at 1. unfold bind at 1. unfold observe at 1.
  destruct (locator_count (FocusedListItem VideoRail) (page s1)) as [n w].
  cbn [ret]. destruct (n >? 0); cbn [negb].
  2:{ eexists _, _, d, O, O. split; [reflexivity|].
      cbn [set_page sent repeat]. rewrite !app_nil_r.
      repeat split; auto; try discriminate; try lia. }
  unfold HomeScreenPage.videoRailSearch, for_lt. unfold bind at 1.
  destruct (videoRailSearch_loop_sent fuel appName
              (Z.to_nat NAVIGATION_LIMITS.MAX_APP_SEARCH_STEPS) Hfuel
              0 None (set_page w s1))
    as (c & s2 & k & Eloop & Hc & Hs2 & Hk).
  assert (Hright : Z.of_nat k <= NAVIGATION_LIMITS.MAX_APP_SEARCH_STEPS).
  { unfold NAVIGATION_LIMITS.MAX_APP_SEARCH_STEPS in *. lia. }
  rewrite Eloop. cbn [set_page sent] in Hs2.
  destruct c as [u|[|]].
  - destruct (addFocusedAppToFavorites_sent appName
                (createTestIdFocusGetter VideoRail) s2)
      as (r & s3 & e & Etail & Hr & Hs3 & He & Htrue & Hfalse).
    exists r, s3, d, k, e. rewrite Etail.
    repeat split; auto; try lia.
    rewrite Hs3, Hs2, Hs1, <- !app_assoc. reflexivity.
  - contradiction.
  - exists (Ok false), s2, d, k, O. cbn [repeat ret]. rewrite app_nil_r.
    repeat split; auto; try discriminate; try lia.
    rewrite Hs2, Hs1, <- !app_assoc. reflexivity.
Qed.

(** X14 on the scripted page: the third app of the Video rail is added
    after one down-move, one right-move and three presses of select. *)
Lemma addAppToFavoritesFromAppsPage_keys_bounded_witness :
  exists (r : Res bool) (s' : St Scripted.Tape) (d k e : nat),
    HomeScreenPage.addAppToFavoritesFromAppsPage 20 "c"
      (Scripted.start [Some "a"; Some "b"; Some "c"]) = (r, s')
    /\ r <> OutOfFuel
    /\ sent s' = [] ++ repeat RemoteControl.keys.DOWN d
                   ++ repeat RemoteControl.keys.RIGHT k
                   ++ repeat RemoteControl.keys.SELECT e
    /\ 1 <= Z.of_nat d <= NAVIGATION_LIMITS.MAX_DOWN_STEPS
    /\ Z.of_nat k <= NAVIGATION_LIMITS.MAX_APP_SEARCH_STEPS
    /\ (e <= 3)%nat
    /\ (r = Ok true -> e = 3%nat)
    /\ (r = Ok false -> e = O).
Proof.
  apply (addAppToFavoritesFromAppsPage_keys_bounded Scripted.Tape
           Scripted.world Scripted_clock_laws 20 "c"
           (Scripted.start [Some "a"; Some "b"; Some "c"])).
  vm_compute. lia.
Defined.

Section VideoRailNeverFocused.
Context {W : Type} `{World W}.
Variable Inv : W -> Prop.
Hypothesis Inv_press : forall k w, Inv w -> Inv (keyboard_press k w).
Hypothesis Inv_wait : forall ms w, Inv w -> Inv (waitForTimeout ms w).
Hypothesis Inv_load :
  forall st w, Inv w ->
    fst (waitForLoadState st w) = true /\ Inv (snd (waitForLoadState st w)).
Hypothesis Inv_count :
  forall w, Inv w ->
    fst (locator_count (FocusedListItem VideoRail) w) <= 0
    /\ Inv (snd (locator_count (FocusedListItem VideoRail) w)).

(** While no item of the Video rail takes the focus, a turn of the
    first loop falls through after its down-move. *)
Lemma enterVideoRail_step_unfocused (i : Z) (s : St W) :
  Inv (page s) ->
  exists w',
    HomeScreenPage.enterVideoRail_step i tt s
    = (Ok (Normal tt),
       mkSt w' (sent s ++ [RemoteControl.keys.DOWN]) (warned s))
    /\ Inv w'.
Proof.
  intro Hinv.
  unfold HomeScreenPage.enterVideoRail_step, RemoteControl.moveDown.
  unfold bind at 1. rewrite pressKeyMultiple_one.
  unfold HomeScreenPage.isVideoRailItemFocused.
  unfold bind at 1. unfold bind at 1. unfold observe at 1.
  assert (Hinv1 : Inv (page (pressed RemoteControl.keys.DOWN s))).
  { cbn [pressed page]. auto. }
  destruct (Inv_count _ Hinv1) as [Hcount Hinv2].
  destruct (locator_count (FocusedListItem VideoRail)
              (page (pressed RemoteControl.keys.DOWN s))) as [c w].
  cbn [fst snd] in Hcount, Hinv2. cbn [ret].
  replace (c >? 0) with false
    by (symmetry; rewrite Z.gtb_ltb; apply Z.ltb_ge; lia).
  unfold bind at 1.
  destruct (i <? NAVIGATION_LIMITS.MAX_DOWN_STEPS - 1).
  - unfold await_or, bind at 1, observe. cbn [page set_page pressed].
    destruct (Inv_load "domcontentloaded" w Hinv2) as [Hok Hinv3].
    destruct (waitForLoadState "domcontentloaded" w) as [ok w2].
    cbn [fst snd] in Hok, Hinv3. subst ok.
    exists w2. split; [reflexivity|exact Hinv3].
  - exists w. split; [reflexivity|exact Hinv2].
Qed.

(** So the first loop runs all its turns. *)
Lemma enterVideoRail_loop_unfocused (n : nat) :
  forall (i : Z) (s : St W),
    Inv (page s) ->
    exists w',
      for_steps n i tt HomeScreenPage.enterVideoRail_step s
      = (Ok (inl tt),
         mkSt w' (sent s ++ repeat RemoteControl.keys.DOWN n) (warned s))
      /\ Inv w'.
Proof.
  induction n as [|n IH]; intros i s Hinv.
  - exists (page s). cbn. unfold ret. rewrite app_nil_r.
    split; [now destruct s|exact Hinv].
  - rewrite for_steps_unfold.
    destruct (enterVideoRail_step_unfocused i s Hinv) as (w1 & Estep & Hinv1).
    rewrite Estep.
    destruct (IH (i + 1)
                (mkSt w1 (sent s ++ [RemoteControl.keys.DOWN]) (warned s))
                Hinv1) as (w' & Erun & Hinv').
    exists w'. rewrite Erun. cbn [sent warned].
    rewrite <- app_assoc. split; [reflexivity|exact Hinv'].
Qed.

End VideoRailNeverFocused.

(** X15.  If no item of the Video rail ever takes the focus (on every
    page the run can reach, the focused-item count is 0 and the load
    state is reached), [addAppToFavoritesFromAppsPage] gives up after
    exactly [MAX_DOWN_STEPS] down-moves: it logs its warning and returns
    [false] without ever sending a right-move or a press of select. *)
Theorem addAppToFavoritesFromAppsPage_rail_never_focused :
  forall (W : Type) (H : World W) (Inv : W -> Prop) (fuel : nat)
         (appName : string) (s : St W),
    (forall k w, Inv w -> Inv (keyboard_press k w)) ->
    (forall ms w, Inv w -> Inv (waitForTimeout ms w)) ->
    (forall st w, Inv w ->
       fst (waitForLoadState st w) = true /\ Inv (snd (waitForLoadState st w))) ->
    (forall w, Inv w ->
       fst (locator_count (FocusedListItem VideoRail) w) <= 0
       /\ Inv (snd (locator_count (FocusedListItem VideoRail) w))) ->
    Inv (page s) ->
    exists w',
      HomeScreenPage.addAppToFavoritesFromAppsPage fuel appName s
      = (Ok false,
         mkSt w'
           (sent s ++ repeat RemoteControl.keys.DOWN
                        (Z.to_nat NAVIGATION_LIMITS.MAX_DOWN_STEPS))
           (warned s ++
              [("[HomeScreenPage] Could not focus any item in Video rail while adding "
                  ++ dquote ++ appName ++ dquote)%string])).
Proof.
  intros W H Inv fuel appName s Hpress Hwait Hload Hcount Hinv.
  unfold HomeScreenPage.addAppToFavoritesFromAppsPage, for_lt.
  destruct (enterVideoRail_loop_unfocused Inv Hpress Hwait Hload Hcount
              (Z.to_nat NAVIGATION_LIMITS.MAX_DOWN_STEPS) 0 s Hinv)
    as (w1 & Eenter & Hinv1).
  unfold bind at 1. rewrite Eenter.
  unfold HomeScreenPage.isVideoRailItemFocused.
  unfold bind at 1. unfold bind at 1. unfold observe at 1. cbn [page].
  destruct (Hcount w1 Hinv1) as [Hc _].
  destruct (locator_count (FocusedListItem VideoRail) w1) as [c w2].
  cbn [fst] in Hc. cbn [ret].
  replace (c >? 0) with false by (symmetry; rewrite Z.gtb_ltb; apply Z.ltb_ge; lia).
  cbn [negb]. exists w2. reflexivity.
Qed.

(** X15 on the scripted page: nothing is ever focused. *)
Lemma addAppToFavoritesFromAppsPage_rail_never_focused_witness :
  exists w',
    HomeScreenPage.addAppToFavoritesFromAppsPage 20 "Netflix"
      (Scripted.start [None])
    = (Ok false,
       mkSt w'
         ([] ++ repeat RemoteControl.keys.DOWN
                  (Z.to_nat NAVIGATION_LIMITS.MAX_DOWN_STEPS))
         ([] ++
            [("[HomeScreenPage] Could not focus any item in Video rail while adding "
                ++ dquote ++ "Netflix" ++ dquote)%string])).
Proof.
  apply (addAppToFavoritesFromAppsPage_rail_never_focused Scripted.Tape
           Scripted.world (fun t => Scripted.tape t = [None]) 20 "Netflix"
           (Scripted.start [None])).
  - intros k w Hw. cbn. unfold Scripted.press.
    destruct (k =? "ArrowRight")%string; [exact Hw|].
    destruct (k =? "ArrowLeft")%string; exact Hw.
  - intros ms w Hw. exact Hw.
  - intros st w Hw. split; [reflexivity|exact Hw].
  - intros [c tp m] Hw. cbn in Hw. subst tp. cbn. split; [lia|reflexivity].
  - reflexivity.
Defined.

(** ** The management of the favourites *)



(** X17.  A protected app is not removed.  If the app is among the
    favourites, [navigateToApp] finds it, and after the long press the
    remove button reads [data-focused = 'disabled'], then
    [removeAppFromFavoritesIfExists] logs that the app is protected,
    presses Escape and returns [false]: after the search its only press
    is Escape. *)
Theorem removeAppFromFavoritesIfExists_protected :
  forall (W : Type) (H : World W) (S : Session W) (fuel : nat)
         (appName : string) (s s2 : St W),
    fst (app_count (FavouriteListItem appName) (page s)) > 0 ->
    HomeScreenPage.navigateToApp fuel appName NAVIGATION_LIMITS.MAX_RAIL_STEPS
      (set_page (snd (app_count (FavouriteListItem appName) (page s))) s)
    = (Ok true, s2) ->
    fst (app_getAttribute RemoveAppButton "data-focused"
           (keyboard_up RemoteControl.keys.SELECT
              (waitForTimeout TIMEOUTS.LONG_PRESS_DURATION
                 (keyboard_down RemoteControl.keys.SELECT (page s2)))))
    = Some "disabled" ->
    HomeScreenPage.removeAppFromFavoritesIfExists fuel appName s
    = (Ok false,
       mkSt
         (waitForTimeout RemoteControl.keyPressDelay
            (keyboard_press RemoteControl.keys.BACK
               (snd (app_getAttribute RemoveAppButton "data-focused"
                       (keyboard_up RemoteControl.keys.SELECT
                          (waitForTimeout TIMEOUTS.LONG_PRESS_DURATION
                             (keyboard_down RemoteControl.keys.SELECT
                                (page s2))))))))
         (sent s2 ++ [RemoteControl.keys.BACK])
         (warned s2 ++
            [("[HomeScreenPage] App " ++ dquote ++ appName ++ dquote
                ++ " is protected and cannot be deleted")%string])).
Proof.
  intros W H S fuel appName s s2 Hin Hnav Hdisabled.
  unfold HomeScreenPage.removeAppFromFavoritesIfExists,
    HomeScreenPage.isAppInFavorites, HomeScreenPage.console_info.
  unfold bind at 1. unfold bind at 1. unfold observe at 1.
  destruct (app_count (FavouriteListItem appName) (page s)) as [n w0].
  cbn [fst snd] in Hin, Hnav. cbn [ret].
  replace (n >? 0) with true by (symmetry; apply Z.gtb_lt; lia).
  cbn [negb]. unfold bind at 1. rewrite Hnav. cbn [negb].
  unfold RemoteControl.holdSelect.
  unfold bind at 1. unfold bind at 1. unfold bind at 1.
  unfold page_waitForTimeout. unfold bind at 1. unfold observe at 1.
  cbn [page set_page sent warned].
  destruct (app_getAttribute RemoveAppButton "data-focused" _) as [st w2].
  cbn [fst snd] in *. subst st. cbn [Js.strict_eq String.eqb Ascii.eqb Bool.eqb].
  unfold bind at 1. unfold console_warn. unfold bind at 1.
  unfold RemoteControl.back. rewrite pressKey_eq. reflexivity.
Qed.

(** X17 on the scripted page: "Watch TV" is focused and protected. *)
Lemma removeAppFromFavoritesIfExists_protected_witness :
  HomeScreenPage.removeAppFromFavoritesIfExists 10 "Watch TV"
    (Scripted.start [Some "Watch TV"])
  = (Ok false,
     mkSt (Scripted.mkTape 1600 [Some "Watch TV"] 1)
       ([] ++ ["Escape"])
       ([] ++ [("[HomeScreenPage] App " ++ dquote ++ "Watch TV" ++ dquote
                  ++ " is protected and cannot be deleted")%string])).
Proof.
  apply (removeAppFromFavoritesIfExists_protected Scripted.Tape Scripted.world
           Scripted.session 10 "Watch TV" (Scripted.start [Some "Watch TV"])
           (Scripted.start [Some "Watch TV"])).
  - vm_compute. reflexivity.
  - reflexivity.
  - reflexivity.
Defined.

(** X18.  [ensureNetflixInFavorites] does nothing when Netflix is among
    the favourites: it returns in the state its one read left, without a
    key.  And it returns normally only in that case or after
    [navigateToAppsPage] returned and [addAppToFavoritesFromAppsPage]
    returned [true]: a failed addition never passes silently. *)
Theorem ensureNetflixInFavorites_postcondition :
  forall (W : Type) (H : World W) (S : Session W) (fuel : nat) (s : St W),
    (fst (app_count (FavouriteListItem "Netflix") (page s)) > 0 ->
     HomeScreenPage.ensureNetflixInFavorites fuel s
     = (Ok tt, set_page (snd (app_count (FavouriteListItem "Netflix") (page s))) s))
    /\ (forall s',
          HomeScreenPage.ensureNetflixInFavorites fuel s = (Ok tt, s') ->
          fst (app_count (FavouriteListItem "Netflix") (page s)) > 0
          \/ exists s1,
               HomeScreenPage.navigateToAppsPage
                 (set_page (snd (app_count (FavouriteListItem "Netflix") (page s))) s)
               = (Ok tt, s1)
               /\ HomeScreenPage.addAppToFavoritesFromAppsPage fuel "Netflix" s1
                  = (Ok true, s')).
Proof.
  intros W H S fuel s.
  assert (Erun :
    HomeScreenPage.ensureNetflixInFavorites fuel s =
    if fst (app_count (FavouriteListItem "Netflix") (page s)) >? 0 then
      (Ok tt, set_page (snd (app_count (FavouriteListItem "Netflix") (page s))) s)
    else
      match HomeScreenPage.navigateToAppsPage
              (set_page (snd (app_count (FavouriteListItem "Netflix") (page s))) s)
      with
      | (Ok _, s1) =>
          match HomeScreenPage.addAppToFavoritesFromAppsPage fuel "Netflix" s1 with
          | (Ok true, s2) => (Ok tt, s2)
          | (Ok false, s2) =>
              (Throw (Error "Netflix app not found in the Video rail on Apps page"),
               s2)
          | (Throw e, s2) => (Throw e, s2)
          | (OutOfFuel, s2) => (OutOfFuel, s2)
          end
      | (Throw e, s1) => (Throw e, s1)
      | (OutOfFuel, s1) => (OutOfFuel, s1)
      end).
  { unfold HomeScreenPage.ensureNetflixInFavorites,
      HomeScreenPage.isAppInFavorites, HomeScreenPage.console_info.
    unfold bind at 1. unfold bind at 1. unfold observe at 1.
    destruct (app_count (FavouriteListItem "Netflix") (page s)) as [n w0].
    cbn [fst snd ret]. destruct (n >? 0); [reflexivity|].
    unfold bind at 1. cbn [ret]. unfold bind at 1.
    destruct (HomeScreenPage.navigateToAppsPage (set_page w0 s))
      as [[[]|e|] s1]; try reflexivity.
    unfold bind at 1.
    destruct (HomeScreenPage.addAppToFavoritesFromAppsPage fuel "Netflix" s1)
      as [[[|]|e|] s2]; reflexivity. }
  rewrite Erun. clear Erun.
  destruct (app_count (FavouriteListItem "Netflix") (page s)) as [n w0].
  cbn [fst snd].
  destruct (Z.gtb_spec n 0) as [Hpos|Hneg].
  - split; [reflexivity|]. intros s' _. left. lia.
  - split; [lia|]. intros s' E. right.
    destruct (HomeScreenPage.navigateToAppsPage (set_page w0 s))
      as [[[]|e|] s1]; try discriminate.
    exists s1. split; [reflexivity|].
    destruct (HomeScreenPage.addAppToFavoritesFromAppsPage fuel "Netflix" s1)
      as [[[|]|e|] s2]; try discriminate.
    now inversion E.
Qed.

(** X18 on the scripted page: Netflix is the second favourite. *)
Lemma ensureNetflixInFavorites_postcondition_witness :
  HomeScreenPage.ensureNetflixInFavorites 20
    (Scripted.start [Some "Watch TV"; Some "Netflix"])
  = (Ok tt, Scripted.start [Some "Watch TV"; Some "Netflix"]).
Proof.
  apply (proj1 (ensureNetflixInFavorites_postcondition Scripted.Tape
                  Scripted.world Scripted.session 20
                  (Scripted.start [Some "Watch TV"; Some "Netflix"]))).
  vm_compute. reflexivity.
Defined.
